(** * Astra [file_input]: PCR-paced replay of TS and M2TS files

    A shallow embedding of the file input module (probe, input window,
    SPSC ring with wake-up channel, control surface, lock file) and the
    properties of its specification that were checked against it. *)

From Stdlib Require Import ZArith List Bool Lia Floats String.
Import ListNotations.
Local Open Scope Z_scope.

(** ** Machine integers and memory *)

(** [uint32_t], [uint64_t] and [size_t] (LP64) wrap around; [int] is two's
    complement, which is what the compilers of the module's platforms give
    for a shift into the sign bit. *)
Definition u32 (z : Z) : Z := z mod 2 ^ 32.
Definition u64 (z : Z) : Z := z mod 2 ^ 64.
Definition i32 (z : Z) : Z :=
  let r := z mod 2 ^ 32 in if r <? 2 ^ 31 then r else r - 2 ^ 32.

(** A [uint8_t *] is modelled by the bytes it gives access to: [p i] is
    [p[i]].  Reads are total: an index outside the allocation reads whatever
    the function holds there.  A null pointer is [None] of [option]. *)
Definition mem := Z -> Z.

(** [&p[off]] *)
Definition index (p : mem) (off : Z) : mem := fun i => p (off + i).

(** [memcpy(&dst[at], src, n)] *)
Definition memcpy (dst : mem) (at_ : Z) (src : mem) (n : Z) : mem :=
  fun i => if (at_ <=? i) && (i <? at_ + n) then src (i - at_) else dst i.

(** Modelled from the spec: the packet sizes of [astra.h], which is not part
    of the sources at hand (a TS packet is 188 bytes, an M2TS cell 192). *)
Definition TS_PACKET_SIZE : Z := 188.
Definition M2TS_PACKET_SIZE : Z := 192.

Definition INPUT_BUFFER_SIZE : Z := 2.
Definition SYNC_BUFFER_SIZE : Z := TS_PACKET_SIZE * 2048.

(** ** PCR arithmetic *)

Definition check_pcr (ts : mem) : bool :=
  negb (Z.land (ts 3) 0x20 =? 0)      (* adaptation field without payload *)
  && (0 <? ts 4)                      (* adaptation field length *)
  && negb (Z.land (ts 5) 0x10 =? 0)   (* PCR_flag *)
  && (Z.land (ts 5) 0x40 =? 0).       (* random_access_indicator *)

(** The five terms of [pcr_base] are [int]s, so is their disjunction; it is
    converted to [uint64_t] afterwards. *)
Definition calc_pcr (ts : mem) : Z :=
  let pcr_base :=
    u64 (i32 (Z.lor (Z.lor (Z.lor (Z.lor (Z.shiftl (ts 6) 25)
                                         (Z.shiftl (ts 7) 17))
                                  (Z.shiftl (ts 8) 9))
                           (Z.shiftl (ts 9) 1))
                    (Z.shiftr (ts 10) 7))) in
  let pcr_ext := u64 (i32 (Z.lor (Z.shiftl (Z.land (ts 10) 1) 8) (ts 11))) in
  u64 (pcr_base * 300 + pcr_ext).

Definition m2ts_time (ts : mem) : Z :=
  u32 (Z.lor (Z.lor (Z.lor (Z.shiftl (ts 0) 24) (Z.shiftl (ts 1) 16))
                    (Z.shiftl (ts 2) 8))
             (ts 3)).

(** The loop shared by [seek_pcr_188] and [seek_pcr_192]: [p] is the running
    [buffer] pointer (an offset into the window), [hdr] the offset of the TS
    header in a packet.  The fuel bounds the number of strides. *)
Fixpoint seek_loop (stride hdr : Z) (fuel : nat) (buffer : mem)
    (p buffer_end : Z) : option Z :=
  match fuel with
  | O => None
  | S fuel' =>
      if p <? buffer_end then
        if check_pcr (index buffer (p + hdr)) then Some p
        else seek_loop stride hdr fuel' buffer (p + stride) buffer_end
      else None
  end.

Definition seek_fuel (stride p buffer_end : Z) : nat :=
  Z.to_nat ((buffer_end - p) / stride + 1).

Definition seek_pcr_188 (window : mem) (buffer buffer_end : Z) : option Z :=
  let buffer := buffer + TS_PACKET_SIZE in
  seek_loop TS_PACKET_SIZE 0 (seek_fuel TS_PACKET_SIZE buffer buffer_end)
    window buffer buffer_end.

Definition seek_pcr_192 (window : mem) (buffer buffer_end : Z) : option Z :=
  let buffer := buffer + M2TS_PACKET_SIZE in
  seek_loop M2TS_PACKET_SIZE 4 (seek_fuel M2TS_PACKET_SIZE buffer buffer_end)
    window buffer buffer_end.

(** ** Module state *)

(** The ring between the producer thread and the event loop. *)
Module Sync.
Record t := mk {
  buffer : mem;
  buffer_size : Z;
  buffer_count : Z;
  buffer_read : Z;
  buffer_write : Z;
  buffer_overflow : Z
}.
End Sync.

(** The input window.  [ptr] is an offset from [buffer], or null; the field
    [end] of the source is [buffer + size] throughout. *)
Module Input.
Record t := mk {
  buffer : mem;           (* the bytes at [buffer]; none while it is null *)
  ptr : option Z;
  size : Z;
  skip : Z                (* for pread *)
}.
Definition end_ (i : t) : Z := size i.
End Input.

Record module_data_t := {
  filename : string;
  lock : option string;
  loop : bool;
  fd : Z;
  idx_callback : Z;
  file_size : Z;
  ts_size : Z;            (* 188 - TS, 192 - M2TS *)
  start_time : Z;
  length : Z;
  pause : Z;
  reposition : bool;
  timer_skip : bool;      (* the 2 s lock timer is armed *)
  sync : Sync.t;
  pcr : Z;
  input : Input.t
}.

Definition set_filename (v : string) (d : module_data_t) : module_data_t :=
  {| filename := v; lock := lock d; loop := loop d; fd := fd d;
     idx_callback := idx_callback d; file_size := file_size d;
     ts_size := ts_size d; start_time := start_time d; length := length d;
     pause := pause d; reposition := reposition d;
     timer_skip := timer_skip d; sync := sync d; pcr := pcr d;
     input := input d |}.

Definition set_lock (v : option string) (d : module_data_t) : module_data_t :=
  {| filename := filename d; lock := v; loop := loop d; fd := fd d;
     idx_callback := idx_callback d; file_size := file_size d;
     ts_size := ts_size d; start_time := start_time d; length := length d;
     pause := pause d; reposition := reposition d;
     timer_skip := timer_skip d; sync := sync d; pcr := pcr d;
     input := input d |}.

Definition set_loop (v : bool) (d : module_data_t) : module_data_t :=
  {| filename := filename d; lock := lock d; loop := v; fd := fd d;
     idx_callback := idx_callback d; file_size := file_size d;
     ts_size := ts_size d; start_time := start_time d; length := length d;
     pause := pause d; reposition := reposition d;
     timer_skip := timer_skip d; sync := sync d; pcr := pcr d;
     input := input d |}.

Definition set_fd (v : Z) (d : module_data_t) : module_data_t :=
  {| filename := filename d; lock := lock d; loop := loop d; fd := v;
     idx_callback := idx_callback d; file_size := file_size d;
     ts_size := ts_size d; start_time := start_time d; length := length d;
     pause := pause d; reposition := reposition d;
     timer_skip := timer_skip d; sync := sync d; pcr := pcr d;
     input := input d |}.

Definition set_idx_callback (v : Z) (d : module_data_t) : module_data_t :=
  {| filename := filename d; lock := lock d; loop := loop d; fd := fd d;
     idx_callback := v; file_size := file_size d; ts_size := ts_size d;
     start_time := start_time d; length := length d; pause := pause d;
     reposition := reposition d; timer_skip := timer_skip d; sync := sync d;
     pcr := pcr d; input := input d |}.

Definition set_file_size (v : Z) (d : module_data_t) : module_data_t :=
  {| filename := filename d; lock := lock d; loop := loop d; fd := fd d;
     idx_callback := idx_callback d; file_size := v; ts_size := ts_size d;
     start_time := start_time d; length := length d; pause := pause d;
     reposition := reposition d; timer_skip := timer_skip d; sync := sync d;
     pcr := pcr d; input := input d |}.

Definition set_ts_size (v : Z) (d : module_data_t) : module_data_t :=
  {| filename := filename d; lock := lock d; loop := loop d; fd := fd d;
     idx_callback := idx_callback d; file_size := file_size d; ts_size := v;
     start_time := start_time d; length := length d; pause := pause d;
     reposition := reposition d; timer_skip := timer_skip d; sync := sync d;
     pcr := pcr d; input := input d |}.

Definition set_start_time (v : Z) (d : module_data_t) : module_data_t :=
  {| filename := filename d; lock := lock d; loop := loop d; fd := fd d;
     idx_callback := idx_callback d; file_size := file_size d;
     ts_size := ts_size d; start_time := v; length := length d;
     pause := pause d; reposition := reposition d;
     timer_skip := timer_skip d; sync := sync d; pcr := pcr d;
     input := input d |}.

Definition set_length (v : Z) (d : module_data_t) : module_data_t :=
  {| filename := filename d; lock := lock d; loop := loop d; fd := fd d;
     idx_callback := idx_callback d; file_size := file_size d;
     ts_size := ts_size d; start_time := start_time d; length := v;
     pause := pause d; reposition := reposition d;
     timer_skip := timer_skip d; sync := sync d; pcr := pcr d;
     input := input d |}.

Definition set_pause (v : Z) (d : module_data_t) : module_data_t :=
  {| filename := filename d; lock := lock d; loop := loop d; fd := fd d;
     idx_callback := idx_callback d; file_size := file_size d;
     ts_size := ts_size d; start_time := start_time d; length := length d;
     pause := v; reposition := reposition d; timer_skip := timer_skip d;
     sync := sync d; pcr := pcr d; input := input d |}.

Definition set_reposition (v : bool) (d : module_data_t) : module_data_t :=
  {| filename := filename d; lock := lock d; loop := loop d; fd := fd d;
     idx_callback := idx_callback d; file_size := file_size d;
     ts_size := ts_size d; start_time := start_time d; length := length d;
     pause := pause d; reposition := v; timer_skip := timer_skip d;
     sync := sync d; pcr := pcr d; input := input d |}.

Definition set_timer_skip (v : bool) (d : module_data_t) : module_data_t :=
  {| filename := filename d; lock := lock d; loop := loop d; fd := fd d;
     idx_callback := idx_callback d; file_size := file_size d;
     ts_size := ts_size d; start_time := start_time d; length := length d;
     pause := pause d; reposition := reposition d; timer_skip := v;
     sync := sync d; pcr := pcr d; input := input d |}.

Definition set_sync (v : Sync.t) (d : module_data_t) : module_data_t :=
  {| filename := filename d; lock := lock d; loop := loop d; fd := fd d;
     idx_callback := idx_callback d; file_size := file_size d;
     ts_size := ts_size d; start_time := start_time d; length := length d;
     pause := pause d; reposition := reposition d;
     timer_skip := timer_skip d; sync := v; pcr := pcr d;
     input := input d |}.

Definition set_pcr (v : Z) (d : module_data_t) : module_data_t :=
  {| filename := filename d; lock := lock d; loop := loop d; fd := fd d;
     idx_callback := idx_callback d; file_size := file_size d;
     ts_size := ts_size d; start_time := start_time d; length := length d;
     pause := pause d; reposition := reposition d;
     timer_skip := timer_skip d; sync := sync d; pcr := v;
     input := input d |}.

Definition set_input (v : Input.t) (d : module_data_t) : module_data_t :=
  {| filename := filename d; lock := lock d; loop := loop d; fd := fd d;
     idx_callback := idx_callback d; file_size := file_size d;
     ts_size := ts_size d; start_time := start_time d; length := length d;
     pause := pause d; reposition := reposition d;
     timer_skip := timer_skip d; sync := sync d; pcr := pcr d; input := v |}.

Definition set_input_buffer (v : mem) (d : module_data_t) : module_data_t :=
  set_input (Input.mk v (Input.ptr (input d)) (Input.size (input d))
                      (Input.skip (input d))) d.

Definition set_input_ptr (v : option Z) (d : module_data_t) : module_data_t :=
  set_input (Input.mk (Input.buffer (input d)) v (Input.size (input d))
                      (Input.skip (input d))) d.

Definition set_input_skip (v : Z) (d : module_data_t) : module_data_t :=
  set_input (Input.mk (Input.buffer (input d)) (Input.ptr (input d))
                      (Input.size (input d)) v) d.

Definition set_sync_buffer (v : mem) (d : module_data_t) : module_data_t :=
  let s := sync d in
  set_sync (Sync.mk v (Sync.buffer_size s) (Sync.buffer_count s)
                    (Sync.buffer_read s) (Sync.buffer_write s)
                    (Sync.buffer_overflow s)) d.

Definition set_sync_buffer_count (v : Z) (d : module_data_t) : module_data_t :=
  let s := sync d in
  set_sync (Sync.mk (Sync.buffer s) (Sync.buffer_size s) v
                    (Sync.buffer_read s) (Sync.buffer_write s)
                    (Sync.buffer_overflow s)) d.

Definition set_sync_buffer_read (v : Z) (d : module_data_t) : module_data_t :=
  let s := sync d in
  set_sync (Sync.mk (Sync.buffer s) (Sync.buffer_size s) (Sync.buffer_count s)
                    v (Sync.buffer_write s) (Sync.buffer_overflow s)) d.

Definition set_sync_buffer_write (v : Z) (d : module_data_t) : module_data_t :=
  let s := sync d in
  set_sync (Sync.mk (Sync.buffer s) (Sync.buffer_size s) (Sync.buffer_count s)
                    (Sync.buffer_read s) v (Sync.buffer_overflow s)) d.

Definition set_sync_buffer_overflow (v : Z) (d : module_data_t)
    : module_data_t :=
  let s := sync d in
  set_sync (Sync.mk (Sync.buffer s) (Sync.buffer_size s) (Sync.buffer_count s)
                    (Sync.buffer_read s) (Sync.buffer_write s) v) d.

(** ** The world around the module *)

(** A file on disk, as [fstat] and [pread] see it. *)
Record file_t := { st_size : Z; contents : mem }.

Inductive level := warning | error.
Inductive log_arg := arg_int (z : Z) | arg_double (d : float).

(** A log line: the text is the format string after the [MSG] prefix. *)
Record log_entry := { lvl : level; text : string; args : list log_arg }.

Record machine := {
  data : module_data_t;          (* the module instance, [*mod] *)
  disk : option file_t;          (* the file [filename] names, if it opens *)
  lock_file : option (list Z);   (* the lock file, if it exists *)
  lock_writable : bool;          (* whether the lock file opens for writing *)
  uninit : mem;                  (* what uninitialised memory holds *)
  channel : list Z;              (* bytes in flight from sync.fd[0] to fd[1] *)
  clock : nat -> Z;              (* the readings [asc_utime] will return *)
  clock_reads : nat;
  eof_calls : nat;               (* calls of the EOF callback so far *)
  log : list log_entry
}.

Definition set_data (v : module_data_t) (m : machine) : machine :=
  {| data := v; disk := disk m; lock_file := lock_file m;
     lock_writable := lock_writable m; uninit := uninit m;
     channel := channel m; clock := clock m; clock_reads := clock_reads m;
     eof_calls := eof_calls m; log := log m |}.

Definition set_lock_file (v : option (list Z)) (m : machine) : machine :=
  {| data := data m; disk := disk m; lock_file := v;
     lock_writable := lock_writable m; uninit := uninit m;
     channel := channel m; clock := clock m; clock_reads := clock_reads m;
     eof_calls := eof_calls m; log := log m |}.

Definition set_channel (v : list Z) (m : machine) : machine :=
  {| data := data m; disk := disk m; lock_file := lock_file m;
     lock_writable := lock_writable m; uninit := uninit m;
     channel := v; clock := clock m; clock_reads := clock_reads m;
     eof_calls := eof_calls m; log := log m |}.

Definition set_clock_reads (v : nat) (m : machine) : machine :=
  {| data := data m; disk := disk m; lock_file := lock_file m;
     lock_writable := lock_writable m; uninit := uninit m;
     channel := channel m; clock := clock m; clock_reads := v;
     eof_calls := eof_calls m; log := log m |}.

Definition set_eof_calls (v : nat) (m : machine) : machine :=
  {| data := data m; disk := disk m; lock_file := lock_file m;
     lock_writable := lock_writable m; uninit := uninit m;
     channel := channel m; clock := clock m; clock_reads := clock_reads m;
     eof_calls := v; log := log m |}.

Definition set_log (v : list log_entry) (m : machine) : machine :=
  {| data := data m; disk := disk m; lock_file := lock_file m;
     lock_writable := lock_writable m; uninit := uninit m;
     channel := channel m; clock := clock m; clock_reads := clock_reads m;
     eof_calls := eof_calls m; log := v |}.

(** A call either returns, or it does not come to a result the C language
    defines: it reads through a null pointer, waits in [recv] on an empty
    channel, divides an integer by zero, or reads past the end of an
    array. *)
Inductive stop :=
| null_dereference
| recv_blocks
| division_by_zero
| reads_past_array.

Inductive result (A : Type) :=
| Done (a : A) (m : machine)
| Stop (s : stop).
Arguments Done {A} a m.
Arguments Stop {A} s.

Definition M (A : Type) : Type := machine -> result A.

Definition ret {A} (a : A) : M A := fun m => Done a m.

Definition bind {A B} (c : M A) (k : A -> M B) : M B :=
  fun m => match c m with
           | Done a m' => k a m'
           | Stop s => Stop s
           end.

Declare Scope M_scope.
Delimit Scope M_scope with M.
Notation "x <- c ;; k" := (bind c (fun x => k))
  (at level 61, c at next level, right associativity) : M_scope.
Notation "c ;; k" := (bind c (fun _ => k))
  (at level 61, right associativity) : M_scope.
Local Open Scope M_scope.

Definition get : M module_data_t := fun m => Done (data m) m.
Definition modify (f : module_data_t -> module_data_t) : M unit :=
  fun m => Done tt (set_data (f (data m)) m).
Definition halt {A} (s : stop) : M A := fun _ => Stop s.

Definition asc_log (l : level) (msg : string) (a : list log_arg) : M unit :=
  fun m => Done tt (set_log (log m ++ [Build_log_entry l msg a]) m).
Definition asc_log_warning (msg : string) : M unit := asc_log warning msg [].
Definition asc_log_error (msg : string) : M unit := asc_log error msg [].

(** *** System calls *)

(** [open(mod->filename, O_RDONLY)]: descriptor 3 when the file opens (0, 1
    and 2 are taken by the process), -1 otherwise. *)
Definition sys_open : M Z :=
  fun m => Done (match disk m with Some _ => 3 | None => -1 end) m.

Definition sys_close (fd : Z) : M unit := ret tt.

(** [fstat]'s [st_size]; 0 stands for the untouched [sb] of a failed call. *)
Definition sys_fstat (fd : Z) : M Z :=
  fun m => Done (match disk m with Some f => st_size f | None => 0 end) m.

(** [pread(fd, dst, count, offset)] on the file [f] names: the number of
    bytes read and the destination after the call.  -1 on a descriptor that
    is not open and on a negative offset. *)
Definition pread (f : option file_t) (fd : Z) (dst : mem) (count offset : Z)
    : Z * mem :=
  match f with
  | Some f =>
      if (fd <=? 0) || (offset <? 0) then (-1, dst)
      else
        let len := Z.max 0 (Z.min count (st_size f - offset)) in
        (len, memcpy dst 0 (index (contents f) offset) len)
  | None => (-1, dst)
  end.

Definition sys_pread (fd : Z) (dst : mem) (count offset : Z) : M (Z * mem) :=
  fun m => Done (pread (disk m) fd dst count offset) m.

(** [send(mod->sync.fd[0], bytes, n, 0)] on the socket pair: the bytes join
    the queue, the call returns their number. *)
Definition sys_send (bytes : list Z) : M Z :=
  fun m => Done (Z.of_nat (List.length bytes))
                (set_channel (channel m ++ bytes) m).

(** [recv(mod->sync.fd[1], cmd, 1, 0)]: the number of bytes received and
    the oldest byte in flight; the call does not return while there is
    none. *)
Definition sys_recv : M (Z * Z) :=
  fun m => match channel m with
           | b :: rest => Done (1, b) (set_channel rest m)
           | [] => Stop recv_blocks
           end.

(** Modelled from the spec: [asc_utime] of the core, not part of the sources
    at hand, reads the clock in microseconds. *)
Definition asc_utime : M Z :=
  fun m => Done (u64 (clock m (clock_reads m)))
                (set_clock_reads (S (clock_reads m)) m).

(** [lua_rawgeti] and [lua_call] of the registered EOF callback. *)
Definition lua_call_callback : M unit :=
  fun m => Done tt (set_eof_calls (S (eof_calls m)) m).

(** An uninitialised local array ([tail] of [open_file], [skip_str] of
    [module_init]) or the [malloc] block of the ring, whose 385024 bytes are
    taken to be there: its content is whatever the memory holds. *)
Definition local_array : M mem := fun m => Done (uninit m) m.

Definition PTRDIFF_MAX : Z := 2 ^ 63 - 1.

(** [malloc(size)]: a block of uninitialised memory, or NULL.  No object is
    larger than [PTRDIFF_MAX] bytes, so a larger request fails; a smaller
    one is taken to succeed. *)
Definition sys_malloc (size : Z) : M (option mem) :=
  fun m => Done (if size <=? PTRDIFF_MAX then Some (uninit m) else None) m.

(** Reading through [mod->input.ptr]. *)
Definition deref_input_ptr : M mem :=
  fun m => match Input.ptr (input (data m)) with
           | Some p => Done (index (Input.buffer (input (data m))) p) m
           | None => Stop null_dereference
           end.

(** ** Opening and probing the file *)

(** [open_file] up to the reading of the window: the file is opened, its
    size taken, the offset to read at checked against it.  The result tells
    whether the file is open. *)
Definition open_file_open : M bool :=
  mod_ <- get ;;
  (if fd mod_ =? 0 then ret tt else sys_close (fd mod_)) ;;
  new_fd <- sys_open ;;
  modify (set_fd new_fd) ;;
  if new_fd <=? 0 then
    modify (set_fd 0) ;;
    ret false
  else
    sb_st_size <- sys_fstat new_fd ;;
    modify (set_file_size sb_st_size) ;;
    mod_ <- get ;;
    (if Input.skip (input mod_) =? 0 then ret tt
     else if file_size mod_ <=? Input.skip (input mod_) then
       asc_log_warning "skip value is greater than the file size" ;;
       modify (set_input_skip 0)
     else ret tt) ;;
    ret true.

(** [open_file] from the reading of the window on: the probe. *)
Definition open_file_probe : M Z :=
  mod_ <- get ;;
  r <- sys_pread (fd mod_) (Input.buffer (input mod_))
                 (Input.size (input mod_)) (Input.skip (input mod_)) ;;
  let len := fst r in
  modify (set_input_buffer (snd r)) ;;
  mod_ <- get ;;
  let buffer := Input.buffer (input mod_) in
  classified <-
    (if negb (Input.size (input mod_) =? len) then
       asc_log_warning "file is too small" ;;
       ret true
     else if (buffer 0 =? 0x47) && (buffer TS_PACKET_SIZE =? 0x47) then
       modify (set_ts_size TS_PACKET_SIZE) ;;
       modify (set_input_ptr
                 (seek_pcr_188 buffer 0 (Input.end_ (input mod_)))) ;;
       ret true
     else if (buffer 4 =? 0x47)
             && (buffer (4 + M2TS_PACKET_SIZE) =? 0x47) then
       modify (set_ts_size M2TS_PACKET_SIZE) ;;
       modify (set_input_ptr
                 (seek_pcr_192 buffer 0 (Input.end_ (input mod_)))) ;;
       cell <- deref_input_ptr ;;
       modify (set_start_time (m2ts_time cell / 1000)) ;;
       mod_ <- get ;;
       tail <- local_array ;;
       t <- sys_pread (fd mod_) tail M2TS_PACKET_SIZE
                      (file_size mod_ - M2TS_PACKET_SIZE) ;;
       let tail := snd t in
       (if negb (tail 4 =? 0x47) then
          asc_log_warning "failed to get M2TS file length"
        else
          let stop_time := m2ts_time tail / 1000 in
          modify (set_length (u32 (stop_time - start_time mod_)))) ;;
       ret true
     else
       asc_log_error "wrong file format" ;;
       sys_close (fd mod_) ;;
       modify (set_fd 0) ;;
       ret false) ;;
  if negb classified then ret 0
  else
    mod_ <- get ;;
    match Input.ptr (input mod_) with
    | None =>
        asc_log_error "first PCR is not found" ;;
        sys_close (fd mod_) ;;
        modify (set_fd 0) ;;
        ret 0
    | Some p =>
        (if ts_size mod_ =? TS_PACKET_SIZE then
           modify (set_pcr (calc_pcr (index buffer p)))
         else
           modify (set_pcr (calc_pcr (index (index buffer p) 4)))) ;;
        ret 1
    end.

Definition open_file : M Z :=
  opened <- open_file_open ;;
  if opened then open_file_probe else ret 0.

(** ** The ring and its wake-up channel *)

Definition newline : string := String (Ascii.ascii_of_nat 10) EmptyString.

(** [ts] is the payload pointer; [None] is the null pointer that asks for the
    exit signal. *)
Definition sync_queue_push (ts : option mem) : M unit :=
  match ts with
  | None =>
      let exit_cmd := [0xFF] in
      n <- sys_send exit_cmd ;;
      if negb (n =? 1) then
        asc_log_error "failed to push exit signal to queue"
      else ret tt
  | Some ts =>
      mod_ <- get ;;
      if Sync.buffer_size (sync mod_) <=? Sync.buffer_count (sync mod_) then
        modify (set_sync_buffer_overflow
                  (u32 (Sync.buffer_overflow (sync mod_) + 1)))
      else
        (if Sync.buffer_overflow (sync mod_) =? 0 then ret tt
         else
           asc_log error "sync buffer overflow. dropped %d packets"
                   [arg_int (Sync.buffer_overflow (sync mod_))] ;;
           modify (set_sync_buffer_overflow 0)) ;;
        modify (set_sync_buffer
                  (memcpy (Sync.buffer (sync mod_))
                          (Sync.buffer_write (sync mod_)) ts TS_PACKET_SIZE)) ;;
        modify (set_sync_buffer_write
                  (u32 (Sync.buffer_write (sync mod_) + TS_PACKET_SIZE))) ;;
        mod_ <- get ;;
        (if Sync.buffer_size (sync mod_) <=? Sync.buffer_write (sync mod_)
         then modify (set_sync_buffer_write 0)
         else ret tt) ;;
        (* __sync_fetch_and_add *)
        modify (fun d => set_sync_buffer_count
                           (u32 (Sync.buffer_count (sync d) + TS_PACKET_SIZE))
                           d) ;;
        let cmd := [0] in
        n <- sys_send cmd ;;
        if negb (n =? 1) then
          asc_log_error ("failed to push signal to queue" ++ newline)
        else ret tt
  end.

(** [ts] is the caller's packet buffer; the result is its content after the
    call. *)
Definition sync_queue_pop (ts : mem) : M mem :=
  r <- sys_recv ;;
  let cmd := snd r in
  (if negb (fst r =? 1) then
     asc_log_error ("failed to pop signal from queue" ++ newline)
   else ret tt) ;;
  mod_ <- get ;;
  if cmd =? 0xFF then
    (if idx_callback mod_ =? 0 then ret tt else lua_call_callback) ;;
    ret ts
  else
    let ts := memcpy ts 0 (index (Sync.buffer (sync mod_))
                                 (Sync.buffer_read (sync mod_)))
                     TS_PACKET_SIZE in
    modify (set_sync_buffer_read
              (u32 (Sync.buffer_read (sync mod_) + TS_PACKET_SIZE))) ;;
    mod_ <- get ;;
    (if Sync.buffer_size (sync mod_) <=? Sync.buffer_read (sync mod_)
     then modify (set_sync_buffer_read 0)
     else ret tt) ;;
    (* __sync_fetch_and_sub *)
    modify (fun d => set_sync_buffer_count
                       (u32 (Sync.buffer_count (sync d) - TS_PACKET_SIZE)) d) ;;
    ret ts.

(** ** The producer thread *)

(** How a section of the body of [asc_thread_while] ends. *)
Inductive loop_ctl :=
| loop_continue                 (* [continue] *)
| loop_break                    (* [break] *)
| loop_block (block_end : Z).   (* go on with the block up to [block_end] *)

(** [thread_loop], from the search of [block_end] to the end of the refill
    branch.  The search strides from [mod->input.ptr], so a null pointer
    there is read through. *)
Definition thread_loop_refill : M loop_ctl :=
  mod_ <- get ;;
  match Input.ptr (input mod_) with
  | None => halt null_dereference
  | Some p =>
      let block_end :=
        if ts_size mod_ =? TS_PACKET_SIZE then
          seek_pcr_188 (Input.buffer (input mod_)) p (Input.end_ (input mod_))
        else
          seek_pcr_192 (Input.buffer (input mod_)) p (Input.end_ (input mod_))
      in
      match block_end with
      | Some e => ret (loop_block e)
      | None =>
          (* try to load data *)
          let done := p in
          modify (set_input_skip (u64 (Input.skip (input mod_) + done))) ;;
          mod_ <- get ;;
          r <- sys_pread (fd mod_) (Input.buffer (input mod_))
                         (Input.size (input mod_)) (Input.skip (input mod_)) ;;
          let len := fst r in
          modify (set_input_buffer (snd r)) ;;
          modify (set_input_ptr (Some 0)) ;;
          if negb (len =? Input.size (input mod_)) then
            if negb (loop mod_) then
              sync_queue_push None ;;
              ret loop_break
            else
              modify (set_input_skip 0) ;;
              modify (set_reposition true) ;;
              ret loop_continue
          else ret loop_continue
      end
  end.

(** [thread_loop], the number of packets of the block: the distance from the
    cursor to [block_end] divided by [ts_size], as [uint32_t].  The search
    that gave [block_end] has read through the cursor before. *)
Definition thread_loop_block_size (block_end : Z) : M Z :=
  mod_ <- get ;;
  match Input.ptr (input mod_) with
  | None => halt null_dereference
  | Some p =>
      if ts_size mod_ =? 0 then halt division_by_zero
      else ret (u32 (Z.quot (block_end - p) (ts_size mod_)))
  end.

(** [thread_loop] after the loop. *)
Definition thread_loop_exit : M unit :=
  mod_ <- get ;;
  if 0 <? fd mod_ then
    sys_close (fd mod_) ;;
    modify (set_input_skip 0) ;;
    modify (set_fd 0)
  else ret tt.

(** The locals of [thread_loop] that the stream syncing works on. *)
Record sync_vars := {
  time_sync_b : Z;
  block_time_total : float;
  total_sync_diff : float;
  pause_total : float
}.

(** [(double)] of a [uint64_t]: to nearest, ties to even.  The primitive
    conversion takes 63 bits; a larger value is halved with its lowest bit
    kept sticky, converted and doubled. *)
Definition u64_to_double (z : Z) : float :=
  if z <? 2 ^ 63 then PrimFloat.of_uint63 (Uint63.of_Z z)
  else (PrimFloat.of_uint63
          (Uint63.of_Z (Z.lor (Z.shiftr z 1) (Z.land z 1))) * 2)%float.

(** [thread_loop], stream syncing: the reading of the clock and the two
    branches on it. *)
Definition stream_sync_diff (v : sync_vars) : M sync_vars :=
  time_sync_e <- asc_utime ;;
  if time_sync_e <? time_sync_b v then
    (* timetravel *)
    asc_log_warning "timetravel detected" ;;
    ret {| time_sync_b := time_sync_b v;
           block_time_total := block_time_total v;
           total_sync_diff := (-1000000)%float;
           pause_total := pause_total v |}
  else
    let time_sync_diff :=
      (u64_to_double (u64 (time_sync_e - time_sync_b v)) / 1000)%float in
    ret {| time_sync_b := time_sync_b v;
           block_time_total := block_time_total v;
           total_sync_diff :=
             (block_time_total v - time_sync_diff - pause_total v)%float;
           pause_total := pause_total v |}.

(** [thread_loop], stream syncing: reset buffer on changing the system
    time. *)
Definition stream_sync_reset (v : sync_vars) : M sync_vars :=
  if ((total_sync_diff v <? -100)%float || (100 <? total_sync_diff v)%float)%bool
  then
    asc_log warning "wrong syncing time: %.2fms. reset time values"
            [arg_double (total_sync_diff v)] ;;
    now <- asc_utime ;;
    ret {| time_sync_b := now; block_time_total := 0%float;
           total_sync_diff := 0%float; pause_total := 0%float |}
  else ret v.

Definition stream_sync (v : sync_vars) : M sync_vars :=
  v <- stream_sync_diff v ;;
  stream_sync_reset v.

(** [thread_loop], the handling of [reposition] at the head of the loop
    body: the file is reopened (the result of [open_file] is not looked
    at), the flag cleared, and the syncing starts anew. *)
Definition thread_loop_reposition (v : sync_vars) : M sync_vars :=
  mod_ <- get ;;
  if reposition mod_ then
    open_file ;;   (* reopen file *)
    modify (set_reposition false) ;;
    now <- asc_utime ;;
    ret {| time_sync_b := now; block_time_total := 0%float;
           total_sync_diff := 0%float; pause_total := 0%float |}
  else ret v.

(** ** The consumer *)

(** [on_thread_read]: the packet buffer is a local array; the result is the
    packet handed to [module_stream_send]. *)
Definition on_thread_read : M mem :=
  ts <- local_array ;;
  sync_queue_pop ts.

(** ** The lock file *)

Definition ULONG_MAX : Z := 2 ^ 64 - 1.

(** [sprintf(skip_str, "%lu", n)]: the decimal digits of an [unsigned long],
    most significant first, as ASCII codes.  Twenty digits hold [ULONG_MAX]. *)
Fixpoint decimal (digits : nat) (n : Z) (acc : list Z) : list Z :=
  match digits with
  | O => acc
  | S digits' =>
      let acc := (48 + n mod 10) :: acc in
      if n / 10 =? 0 then acc else decimal digits' (n / 10) acc
  end.

Definition sprintf_lu (n : Z) : list Z := decimal 20 n [].

Definition isspace (c : Z) : bool := (c =? 32) || ((9 <=? c) && (c <=? 13)).
Definition isdigit (c : Z) : bool := (48 <=? c) && (c <=? 57).

Fixpoint skip_space (s : list Z) : list Z :=
  match s with
  | c :: rest => if isspace c then skip_space rest else s
  | [] => []
  end.

Fixpoint digits_value (s : list Z) (acc : Z) : Z :=
  match s with
  | c :: rest => if isdigit c then digits_value rest (acc * 10 + (c - 48))
                 else acc
  | [] => acc
  end.

(** The optional sign of [strtoul]: whether it is a minus, and the bytes
    after it. *)
Definition strtoul_sign (s : list Z) : bool * list Z :=
  match s with
  | c :: rest =>
      if c =? 45 then (true, rest)
      else if c =? 43 then (false, rest)
      else (false, s)
  | [] => (false, s)
  end.

(** [strtoul(s, NULL, 10)] on the bytes of [s]: white space, an optional
    sign, then digits up to the first byte that is none; [ULONG_MAX] when
    the digits exceed it, 0 when there is no digit. *)
Definition strtoul (s : list Z) : Z :=
  let signed := strtoul_sign (skip_space s) in
  let v := digits_value (snd signed) 0 in
  if ULONG_MAX <? v then ULONG_MAX
  else if fst signed then u64 (- v) else v.

(** Whether the scan of [strtoul] comes to its end on a byte of [s]: after
    white space and the optional sign there is a byte that is no digit. *)
Definition strtoul_stops (s : list Z) : bool :=
  existsb (fun c => negb (isdigit c)) (snd (strtoul_sign (skip_space s))).

(** The bytes of a [char skip_str[n]] up to its first NUL, all [n] of them
    when it holds none. *)
Fixpoint c_string (s : mem) (at_ : Z) (n : nat) : list Z :=
  match n with
  | O => []
  | S n' => if s at_ =? 0 then [] else s at_ :: c_string s (at_ + 1) n'
  end.

(** [strtoul(skip_str, NULL, 10)] on a [char skip_str[n]].  The code does
    not terminate the array: when it holds no NUL and the scan does not
    come to its end on one of its bytes, [strtoul] reads past the array. *)
Definition strtoul_skip_str (skip_str : mem) (n : nat) : M Z :=
  let s := c_string skip_str 0 n in
  if (List.length s <? n)%nat || strtoul_stops s then ret (strtoul s)
  else halt reads_past_array.

(** [open(mod->lock, O_RDONLY)] *)
Definition sys_open_lock : M Z :=
  fun m => Done (match lock_file m with Some _ => 3 | None => -1 end) m.

(** [read(fd, dst, count)] at the start of the lock file. *)
Definition sys_read_lock (fd : Z) (dst : mem) (count : Z) : M (Z * mem) :=
  fun m =>
    match lock_file m with
    | Some bytes =>
        if fd <=? 0 then Done (-1, dst) m
        else
          let l := Z.min count (Z.of_nat (List.length bytes)) in
          Done (l, memcpy dst 0 (fun i => nth (Z.to_nat i) bytes 0) l) m
    | None => Done (-1, dst) m
    end.

(** [open(mod->lock, O_CREAT | O_WRONLY | O_TRUNC, ...)] *)
Definition sys_creat_lock : M Z :=
  fun m => if lock_writable m then Done 3 (set_lock_file (Some []) m)
           else Done (-1) m.

(** [write(fd, bytes, l)] to the lock file. *)
Definition sys_write_lock (fd : Z) (bytes : list Z) : M Z :=
  fun m =>
    match lock_file m with
    | Some old =>
        if fd <=? 0 then Done (-1) m
        else Done (Z.of_nat (List.length bytes))
                  (set_lock_file (Some (old ++ bytes)) m)
    | None => Done (-1) m
    end.

Definition timer_skip_set : M unit :=
  mod_ <- get ;;
  fd <- sys_creat_lock ;;
  if 0 <? fd then
    let skip_str := sprintf_lu (Input.skip (input mod_)) in
    sys_write_lock fd skip_str ;;
    sys_close fd
  else ret tt.

(** ** Methods *)

Definition method_length : M Z :=
  mod_ <- get ;;
  ret (length mod_).

(** [arg] is the value on top of the Lua stack: [None] is nil, [Some n] a
    number, converted to [uint32_t]. *)
Definition method_position (arg : option Z) : M Z :=
  match arg with
  | None => ret 0   (* TODO: push current time *)
  | Some n =>
      let pos := u32 n in
      mod_ <- get ;;
      if (length mod_ <=? pos) || negb (ts_size mod_ =? M2TS_PACKET_SIZE) then
        ret 0
      else
        modify (set_reposition true) ;;
        let ts_count := u32 (file_size mod_ / M2TS_PACKET_SIZE) in
        let ts_skip := u32 (pos * ts_count) / length mod_ in
        modify (set_input_skip (u32 (ts_skip * M2TS_PACKET_SIZE))) ;;
        cell <- deref_input_ptr ;;
        let curr_time := m2ts_time cell / 1000 in
        ret (u32 (curr_time - start_time mod_))
  end.

(** ** Initialisation *)

(** The options of the instance; [check_length] is taken unset. *)
Record options := {
  opt_filename : string;
  opt_lock : option string;
  opt_loop : bool;
  opt_pause : Z;
  opt_callback : bool;
  opt_buffer_size : option Z
}.

(** The instance as the framework hands it to [module_init]: zeroed. *)
Definition zeroed : module_data_t :=
  {| filename := ""; lock := None; loop := false; fd := 0; idx_callback := 0;
     file_size := 0; ts_size := 0; start_time := 0; length := 0; pause := 0;
     reposition := false; timer_skip := false;
     sync := Sync.mk (fun _ => 0) 0 0 0 0 0; pcr := 0;
     input := Input.mk (fun _ => 0) None 0 0 |}.

(** [module_init], the lock file: what is read back from it. *)
Definition module_init_lock : M unit :=
  mod_ <- get ;;
  match lock mod_ with
  | None => ret tt
  | Some _ =>
      fd <- sys_open_lock ;;
      (if fd =? 0 then ret tt
       else
         skip_str <- local_array ;;
         r <- sys_read_lock fd skip_str 64 ;;
         let l := fst r in
         (if 0 <? l then
            skip <- strtoul_skip_str (snd r) 64 ;;
            modify (set_input_skip skip)
          else ret tt) ;;
         sys_close fd) ;;
      modify (set_timer_skip true)
  end.

(** [module_init], the options read into the instance. *)
Definition module_init_options (o : options) : M unit :=
  modify (set_filename (opt_filename o)) ;;
  modify (set_lock (opt_lock o)) ;;
  modify (set_loop (opt_loop o)) ;;
  modify (set_pause (opt_pause o)) ;;
  (* store callback in registry *)
  (if opt_callback o then modify (set_idx_callback 1) else ret tt).

(** [module_init], the ring and the input window.  When the window cannot
    be allocated, [input.buffer] stays the null pointer of the zeroed
    instance and [input.ptr] is null with it; [input.size] is set all the
    same. *)
Definition module_init_buffers (o : options) : M unit :=
  sync_buffer <- local_array ;;
  mod_ <- get ;;
  modify (set_sync (Sync.mk sync_buffer SYNC_BUFFER_SIZE
                            (Sync.buffer_count (sync mod_))
                            (Sync.buffer_read (sync mod_))
                            (Sync.buffer_write (sync mod_))
                            (Sync.buffer_overflow (sync mod_)))) ;;
  let buffer_size :=
    match opt_buffer_size o with
    | Some n => if n <=? 0 then INPUT_BUFFER_SIZE else n
    | None => INPUT_BUFFER_SIZE
    end in
  let size := u64 (i32 (buffer_size * 1024 * 1024)) in
  input_buffer <- sys_malloc size ;;
  mod_ <- get ;;
  match input_buffer with
  | Some buffer =>
      modify (set_input (Input.mk buffer (Some 0) size
                                  (Input.skip (input mod_))))
  | None =>
      modify (set_input (Input.mk (Input.buffer (input mod_)) None size
                                  (Input.skip (input mod_))))
  end.

Definition module_init (o : options) : M unit :=
  module_init_options o ;;
  module_init_lock ;;
  module_init_buffers o.

(** A fresh process: the instance zeroed, nothing in flight, nothing
    logged. *)
Definition boot (f : option file_t) (lk : option (list Z)) (writable : bool)
    (garbage : mem) (clk : nat -> Z) : machine :=
  {| data := zeroed; disk := f; lock_file := lk; lock_writable := writable;
     uninit := garbage; channel := []; clock := clk; clock_reads := 0;
     eof_calls := 0; log := [] |}.

(** ** Log lines and sample inputs *)

Definition warn (s : string) : log_entry := Build_log_entry warning s [].
Definition err (s : string) : log_entry := Build_log_entry error s [].

(** Byte [i] of the big-endian 32-bit [v]. *)
Definition be32 (v i : Z) : Z := Z.land (Z.shiftr v (8 * (3 - i))) 255.

(** A TS packet with sync byte; with [has_pcr] its header announces an
    adaptation field of length 7 with the PCR flag, otherwise payload
    only. *)
Definition packet (has_pcr : bool) : mem :=
  fun i => if i =? 0 then 0x47
           else if i =? 3 then (if has_pcr then 0x20 else 0x10)
           else if i =? 4 then (if has_pcr then 7 else 0)
           else if i =? 5 then (if has_pcr then 0x10 else 0)
           else 0.

(** An M2TS cell: the arrival time stamp, then the TS packet. *)
Definition cell (stamp : Z) (has_pcr : bool) : mem :=
  fun i => if i <? 4 then be32 stamp i else packet has_pcr (i - 4).

(** Scenario S2 of the specification: three cells stamped 1_000_000,
    2_000_000 and 11_000_000, each with a PCR. *)
Definition three_cells : file_t :=
  {| st_size := 3 * 192;
     contents := fun i =>
       if i <? 192 then cell 1000000 true i
       else if i <? 384 then cell 2000000 true (i - 192)
       else cell 11000000 true (i - 384) |}.

(** A TS file of [n] packets; packet [k] carries a PCR when [pcr_at k]. *)
Definition ts_file (n : Z) (pcr_at : Z -> bool) : file_t :=
  {| st_size := n * 188;
     contents := fun i => packet (pcr_at (i / 188)) (i mod 188) |}.

(** An M2TS file of [n] cells; cell [k] is stamped [stamp k] and carries a
    PCR when [pcr_at k]. *)
Definition m2ts_file (n : Z) (stamp : Z -> Z) (pcr_at : Z -> bool) : file_t :=
  {| st_size := n * 192;
     contents := fun i =>
       cell (stamp (i / 192)) (pcr_at (i / 192)) (i mod 192) |}.

(** A recording of a million cells (192 MB), a PCR in every tenth cell; the
    stamps run from 1_000_000 to 100_999_900. *)
Definition long_m2ts : file_t :=
  m2ts_file 1000000 (fun k => 1000000 + 100 * k) (fun k => k mod 10 =? 0).

Definition zeros : mem := fun _ => 0.

Definition options_of (lk : option string) (size_mib : option Z) : options :=
  {| opt_filename := "input.ts"; opt_lock := lk; opt_loop := false;
     opt_pause := 0; opt_callback := false; opt_buffer_size := size_mib |}.

(** The machine when the producer thread starts: booted with zeroed memory
    and initialised. *)
Definition after {A} (c : M A) (m : machine) : machine :=
  match c m with
  | Done _ m' => m'
  | Stop _ => m
  end.

Definition started (o : options) (f : option file_t) (lk : option (list Z))
    : machine :=
  after (module_init o) (boot f lk true zeros (fun _ => 0%Z)).

(** A file of [n] zero bytes. *)
Definition blank_file (n : Z) : file_t :=
  {| st_size := n; contents := zeros |}.

(** A machine whose ring is full: initialised, then [buffer_count] set to
    the capacity. *)
Definition full_ring : machine :=
  let m := started (options_of None None) None None in
  set_data (set_sync_buffer_count SYNC_BUFFER_SIZE (data m)) m.

(** ** Notions the statements use *)

(** The offset [open_file] reads the window at: an offset at or past the end
    of the file is reset. *)
Definition window_offset (m : machine) (f : file_t) : Z :=
  let s := Input.skip (input (data m)) in
  if s =? 0 then 0 else if st_size f <=? s then 0 else s.

(** What the reading of the window returns: the number of bytes and the
    window. *)
Definition probe_read (m : machine) (f : file_t) : Z * mem :=
  pread (Some f) 3 (Input.buffer (input (data m)))
        (Input.size (input (data m))) (window_offset m f).

(** The format the probe takes a window for: the packet size and the offset
    of the TS header in a packet. *)
Definition classify (w : mem) : option (Z * Z) :=
  if (w 0 =? 0x47) && (w TS_PACKET_SIZE =? 0x47)
  then Some (TS_PACKET_SIZE, 0)
  else if (w 4 =? 0x47) && (w (4 + M2TS_PACKET_SIZE) =? 0x47)
  then Some (M2TS_PACKET_SIZE, 4)
  else None.

(** The call returned, with a value and in a machine that satisfy [Q]. *)
Definition returns {A} (r : result A) (Q : A -> machine -> Prop) : Prop :=
  match r with
  | Done a m' => Q a m'
  | Stop _ => False
  end.

(** The machine when [open_file] has opened the file [f]. *)
Definition opened (m : machine) (f : file_t) : machine :=
  let d := set_file_size (st_size f) (set_fd 3 (data m)) in
  if Input.skip (input (data m)) =? 0 then set_data d m
  else if st_size f <=? Input.skip (input (data m)) then
    set_data (set_input_skip 0 d)
      (set_log (log m ++ [warn "skip value is greater than the file size"]) m)
  else set_data d m.

(** The block end the loop looks for from the cursor [p]. *)
Definition next_block_end (m : machine) (p : Z) : option Z :=
  if ts_size (data m) =? TS_PACKET_SIZE then
    seek_pcr_188 (Input.buffer (input (data m))) p (Input.end_ (input (data m)))
  else
    seek_pcr_192 (Input.buffer (input (data m))) p (Input.end_ (input (data m))).

(** The bytes the refill reads, from the cursor [p] on. *)
Definition refill_read (m : machine) (p : Z) : Z * mem :=
  pread (disk m) (fd (data m)) (Input.buffer (input (data m)))
        (Input.size (input (data m)))
        (u64 (Input.skip (input (data m)) + p)).

(** Sample locals of [thread_loop] at the end of a block that started at
    clock reading 10. *)
Definition sample_sync_vars : sync_vars :=
  {| time_sync_b := 10; block_time_total := 40%float;
     total_sync_diff := 0%float; pause_total := 0%float |}.

(** The bytes of a lock file do not form a decimal number: after white
    space and an optional sign comes a byte that is no digit. *)
Definition no_number (bytes : list Z) : bool :=
  match snd (strtoul_sign (skip_space bytes)) with
  | c :: _ => negb (isdigit c)
  | [] => false
  end.

(** A restart: a fresh process is initialised and the producer thread opens
    the file. *)
Definition restart (o : options) : M bool :=
  module_init o ;;
  open_file_open.

Definition empty_file : file_t := {| st_size := 0; contents := zeros |}.

(** The calls that work on the ring: a push of a payload, the push of the
    exit signal, a pop by the event loop. *)
Inductive queue_op :=
| op_push (ts : mem)
| op_exit
| op_pop.

Definition queue_step (op : queue_op) : M unit :=
  match op with
  | op_push ts => sync_queue_push (Some ts)
  | op_exit => sync_queue_push None
  | op_pop => on_thread_read ;; ret tt
  end.

Fixpoint queue_run (ops : list queue_op) : M unit :=
  match ops with
  | [] => ret tt
  | op :: rest => queue_step op ;; queue_run rest
  end.

(** The number of signal bytes in flight that are no sentinel. *)
Definition signals (ch : list Z) : Z :=
  Z.of_nat (List.length (filter (fun b => negb (b =? 0xFF)) ch)).

(** The ring as [module_init] leaves it. *)
Definition ring_ready (m : machine) : Prop :=
  Sync.buffer_size (sync (data m)) = SYNC_BUFFER_SIZE /\
  Sync.buffer_count (sync (data m)) = 0 /\
  Sync.buffer_read (sync (data m)) = 0 /\
  Sync.buffer_write (sync (data m)) = 0 /\
  Sync.buffer_overflow (sync (data m)) = 0 /\
  channel m = [].

(** What every sequence of calls keeps of the ring. *)
Definition ring_inv (m : machine) : Prop :=
  let s := sync (data m) in
  Sync.buffer_size s = SYNC_BUFFER_SIZE /\
  0 <= Sync.buffer_read s < SYNC_BUFFER_SIZE /\
  Sync.buffer_read s mod 188 = 0 /\
  0 <= Sync.buffer_count s <= SYNC_BUFFER_SIZE /\
  Sync.buffer_count s = 188 * signals (channel m) /\
  Sync.buffer_write s
  = (Sync.buffer_read s + Sync.buffer_count s) mod SYNC_BUFFER_SIZE /\
  0 <= Sync.buffer_overflow s < 2 ^ 32.

(** The log line of a push that follows drops. *)
Definition overflow_line (dropped : Z) : list log_entry :=
  if dropped =? 0 then []
  else [Build_log_entry error "sync buffer overflow. dropped %d packets"
                        [arg_int dropped]].

(** Two byte strings of which one starts the other. *)
Inductive agree : list Z -> list Z -> Prop :=
| agree_nil_l l : agree [] l
| agree_nil_r b : agree b []
| agree_cons c b l : agree b l -> agree (c :: b) (c :: l).

(** What [read] leaves in [skip_str]. *)
Definition skip_str_after_read (m : machine) (bytes : list Z) : mem :=
  memcpy (uninit m) 0 (fun i => nth (Z.to_nat i) bytes 0)
         (Z.min 64 (Z.of_nat (List.length bytes))).

(** The scan of [strtoul] over what [read] left in [skip_str] comes to its
    end inside the array. *)
Definition scan_inside (m : machine) (bytes : list Z) : bool :=
  let s := c_string (skip_str_after_read m bytes) 0 64 in
  (List.length s <? 64)%nat || strtoul_stops s.

(** A lock file is configured and holds bytes over which [strtoul] reads
    past [skip_str]. *)
Definition lock_overruns (o : options) (m : machine) : bool :=
  match opt_lock o, lock_file m with
  | Some _, Some (b :: bytes) => negb (scan_inside m (b :: bytes))
  | _, _ => false
  end.

(** The window size [module_init] computes from the option [buffer_size],
    in [int] and then as [size_t]. *)
Definition window_size (o : options) : Z :=
  match opt_buffer_size o with
  | Some n => if n <=? 0 then 2 * 1048576 else u64 (i32 (n * 1024 * 1024))
  | None => 2 * 1048576
  end.

(** The step of the packet search: the size of a TS packet or of an M2TS
    cell, by [ts_size]. *)
Definition stride (m : machine) : Z :=
  if ts_size (data m) =? TS_PACKET_SIZE then TS_PACKET_SIZE
  else M2TS_PACKET_SIZE.

(** *** The ring as a queue *)










(** The bytes of a packet header are bytes. *)
Definition bytes_upto (ts : mem) (n : Z) : Prop :=
  forall i, 0 <= i < n -> 0 <= ts i < 256.

(** ** Reasoning about calls *)

Arguments memcpy : simpl never.
Arguments index : simpl never.
Arguments calc_pcr : simpl never.
Arguments m2ts_time : simpl never.
Arguments check_pcr : simpl never.
Arguments seek_pcr_188 : simpl never.
Arguments seek_pcr_192 : simpl never.
Arguments pread : simpl never.
Arguments u32 : simpl never.
Arguments u64 : simpl never.
Arguments i32 : simpl never.
Arguments strtoul : simpl never.
Arguments c_string : simpl never.
Arguments sprintf_lu : simpl never.

(** Unfold the monad and the system calls, and compute as far as the first
    undecided test. *)
Ltac run_M :=
  unfold bind, get, modify, ret, halt, asc_log_warning, asc_log_error,
    asc_log, sys_open, sys_close, sys_fstat, sys_pread, sys_send, sys_recv,
    asc_utime, lua_call_callback, local_array, deref_input_ptr,
    sys_open_lock, sys_read_lock, sys_creat_lock, sys_write_lock;
  cbn.

(** Decide the next test either way. *)
Ltac case_if :=
  match goal with
  | |- context [if ?b then _ else _] => destruct b eqn:?; cbn
  end.

Lemma pread_short f fd dst count off :
  0 <= st_size f < count -> fst (pread (Some f) fd dst count off) <> count.
Proof.
  intros H. unfold pread.
  destruct ((fd <=? 0) || (off <? 0)) eqn:E; cbn; [lia|].
  apply orb_false_iff in E. destruct E as [_ E]. apply Z.ltb_ge in E. lia.
Qed.

(** ** The probe *)

(** What [open_file] does on every file shorter than the input window: it
    logs the warning "file is too small" and does not probe: [ts_size],
    [start_time], [length] and the cursor keep the values they had, and the
    call returns 1 when the cursor is not null (0, after the error "first
    PCR is not found", when it is). *)
Lemma open_file_short_file (m : machine) (f : file_t) :
  disk m = Some f ->
  0 <= st_size f < Input.size (input (data m)) ->
  exists m',
    open_file m
    = Done (match Input.ptr (input (data m)) with Some _ => 1 | None => 0 end)
           m' /\
    In (warn "file is too small") (log m') /\
    (Input.ptr (input (data m)) = None ->
     In (err "first PCR is not found") (log m')) /\
    ts_size (data m') = ts_size (data m) /\
    start_time (data m') = start_time (data m) /\
    length (data m') = length (data m) /\
    Input.ptr (input (data m')) = Input.ptr (input (data m)).
Proof.
  intros Hf Hsz.
  assert (Hshort : forall d dst off,
             negb (Input.size (input (data m))
                   =? fst (pread (Some f) d dst (Input.size (input (data m)))
                                 off)) = true).
  { intros. apply negb_true_iff, Z.eqb_neq. intro E.
    apply (pread_short f d dst _ off Hsz). auto. }
  unfold open_file, open_file_open, open_file_probe. run_M.
  destruct (Input.ptr (input (data m))) eqn:Hp;
    repeat first [ rewrite Hf | rewrite Hshort | rewrite Hp | progress cbn
                 | case_if ];
    (eexists; split; [reflexivity|]; cbn;
     repeat split; try discriminate; try congruence;
     intros; unfold warn, err; auto 10 using in_or_app, in_eq).
Qed.

Lemma open_file_short_file_witness :
  let m := started (options_of None None) (Some three_cells) None in
  exists m',
    open_file m = Done 1 m' /\
    In (warn "file is too small") (log m') /\
    ts_size (data m') = 0.
Proof.
  intro m.
  destruct (open_file_short_file m three_cells) as [m' H].
  - reflexivity.
  - vm_compute. split; [discriminate | reflexivity].
  - exists m'. intuition.
Defined.

(** C1, where the code departs from it: on scenario S2 with the default
    window of 2 MiB [open_file] logs the warning but does not probe the 576
    bytes read; it returns 1 with the file taken neither for TS nor for
    M2TS ([ts_size] 0, [start_time] and [length] 0 instead of 1000 and
    10000), where the branch "wrong file format" beside it closes the file
    and returns 0.  The thread goes on: its search finds the PCR of the
    second cell, and the size of the block is a division by [ts_size]. *)
Theorem short_file_is_not_probed :
  returns (open_file (started (options_of None None) (Some three_cells) None))
    (fun rc m =>
       rc = 1 /\
       log m = [warn "file is too small"] /\
       ts_size (data m) = 0 /\
       start_time (data m) = 0 /\
       length (data m) = 0 /\
       returns (thread_loop_refill m)
         (fun ctl m' =>
            ctl = loop_block 192 /\
            thread_loop_block_size 192 m' = Stop division_by_zero)).
Proof. vm_compute. repeat split; reflexivity. Qed.

(** The search of a PCR: enough fuel, and what the result is. *)
Lemma seek_loop_spec stride hdr buffer buffer_end :
  0 < stride ->
  forall fuel p,
    (buffer_end - p) / stride + 1 <= Z.of_nat fuel ->
    match seek_loop stride hdr fuel buffer p buffer_end with
    | Some q =>
        exists k, 0 <= k /\ q = p + k * stride /\ q < buffer_end /\
          check_pcr (index buffer (q + hdr)) = true /\
          forall j, 0 <= j < k ->
            check_pcr (index buffer (p + j * stride + hdr)) = false
    | None =>
        forall j, 0 <= j -> p + j * stride < buffer_end ->
          check_pcr (index buffer (p + j * stride + hdr)) = false
    end.
Proof.
  intros Hs. induction fuel as [|fuel IH]; intros p Hfuel; cbn [seek_loop].
  - intros j Hj Hlt. exfalso.
    assert (0 <= (buffer_end - p) / stride) by (apply Z.div_pos; nia).
    lia.
  - destruct (p <? buffer_end) eqn:Hp.
    + apply Z.ltb_lt in Hp.
      destruct (check_pcr (index buffer (p + hdr))) eqn:Hc.
      * exists 0. repeat split; try lia. exact Hc.
      * assert (Hf' : (buffer_end - (p + stride)) / stride + 1
                      <= Z.of_nat fuel).
        { replace (buffer_end - (p + stride))
            with (buffer_end - p + (-1) * stride) by lia.
          rewrite Z.div_add by lia. lia. }
        specialize (IH (p + stride) Hf').
        destruct (seek_loop stride hdr fuel buffer (p + stride) buffer_end)
          as [q|].
        -- destruct IH as (k & Hk & Hq & Hlt & Hcq & Hbefore).
           exists (k + 1). repeat split; try lia; auto.
           intros j Hj. destruct (Z.eq_dec j 0) as [->|Hn].
           ++ replace (p + 0 * stride + hdr) with (p + hdr) by lia. exact Hc.
           ++ replace (p + j * stride + hdr)
                with (p + stride + (j - 1) * stride + hdr) by lia.
              apply Hbefore. lia.
        -- intros j Hj Hlt. destruct (Z.eq_dec j 0) as [->|Hn].
           ++ replace (p + 0 * stride + hdr) with (p + hdr) by lia. exact Hc.
           ++ replace (p + j * stride + hdr)
                with (p + stride + (j - 1) * stride + hdr) by lia.
              apply IH; lia.
    + apply Z.ltb_ge in Hp. intros j Hj Hlt. nia.
Qed.

(** From a window start at offset [start], the search returns the first
    packet after the one at [start] whose header announces a PCR. *)
Lemma seek_loop_first stride hdr buffer start buffer_end k :
  0 < stride -> 1 <= k -> start + k * stride < buffer_end ->
  check_pcr (index buffer (start + k * stride + hdr)) = true ->
  (forall j, 1 <= j < k ->
     check_pcr (index buffer (start + j * stride + hdr)) = false) ->
  seek_loop stride hdr (seek_fuel stride (start + stride) buffer_end) buffer
            (start + stride) buffer_end
  = Some (start + k * stride).
Proof.
  intros Hs Hk Hlt Hc Hbefore.
  pose proof (seek_loop_spec stride hdr buffer buffer_end Hs
                (seek_fuel stride (start + stride) buffer_end)
                (start + stride)) as H.
  assert (Hfuel : (buffer_end - (start + stride)) / stride + 1
                  <= Z.of_nat (seek_fuel stride (start + stride) buffer_end)).
  { unfold seek_fuel. lia. }
  specialize (H Hfuel).
  destruct (seek_loop stride hdr _ buffer (start + stride) buffer_end)
    as [q|].
  - destruct H as (k' & Hk' & Hq & Hq_lt & Hcq & Hb').
    f_equal. subst q.
    assert (k' + 1 = k); [|nia].
    destruct (Z.lt_trichotomy (k' + 1) k) as [Hlt'|[Heq|Hgt]]; auto.
    + specialize (Hbefore (k' + 1) ltac:(lia)).
      replace (start + (k' + 1) * stride + hdr)
        with (start + stride + k' * stride + hdr) in Hbefore by lia.
      congruence.
    + specialize (Hb' (k - 1) ltac:(lia)).
      replace (start + stride + (k - 1) * stride + hdr)
        with (start + k * stride + hdr) in Hb' by lia.
      congruence.
  - specialize (H (k - 1) ltac:(lia) ltac:(nia)).
    replace (start + stride + (k - 1) * stride + hdr)
      with (start + k * stride + hdr) in H by lia.
    congruence.
Qed.

Lemma seek_loop_none stride hdr buffer start buffer_end :
  0 < stride ->
  (forall k, 1 <= k -> start + k * stride < buffer_end ->
     check_pcr (index buffer (start + k * stride + hdr)) = false) ->
  seek_loop stride hdr (seek_fuel stride (start + stride) buffer_end) buffer
            (start + stride) buffer_end
  = None.
Proof.
  intros Hs Hnone.
  pose proof (seek_loop_spec stride hdr buffer buffer_end Hs
                (seek_fuel stride (start + stride) buffer_end)
                (start + stride)) as H.
  assert (Hfuel : (buffer_end - (start + stride)) / stride + 1
                  <= Z.of_nat (seek_fuel stride (start + stride) buffer_end)).
  { unfold seek_fuel. lia. }
  specialize (H Hfuel).
  destruct (seek_loop stride hdr _ buffer (start + stride) buffer_end)
    as [q|]; auto.
  destruct H as (k' & Hk' & Hq & Hq_lt & Hcq & _).
  specialize (Hnone (k' + 1) ltac:(lia) ltac:(nia)).
  replace (start + (k' + 1) * stride + hdr) with (q + hdr) in Hnone by lia.
  congruence.
Qed.

(** *** The opening of the file, in closed form *)

Lemma open_file_open_opened m f :
  disk m = Some f -> open_file_open m = Done true (opened m f).
Proof.
  intros Hf. unfold open_file_open, opened. run_M.
  repeat first [ rewrite Hf | progress cbn | case_if ]; reflexivity.
Qed.

Lemma open_file_opened m f :
  disk m = Some f -> open_file m = open_file_probe (opened m f).
Proof.
  intros Hf. unfold open_file, bind.
  rewrite (open_file_open_opened m f Hf). reflexivity.
Qed.

Ltac opened_proj := unfold opened; cbn; repeat case_if; reflexivity.

Lemma opened_disk m f : disk (opened m f) = disk m.
Proof. opened_proj. Qed.
Lemma opened_uninit m f : uninit (opened m f) = uninit m.
Proof. opened_proj. Qed.
Lemma opened_channel m f : channel (opened m f) = channel m.
Proof. opened_proj. Qed.
Lemma opened_fd m f : fd (data (opened m f)) = 3.
Proof. opened_proj. Qed.
Lemma opened_file_size m f : file_size (data (opened m f)) = st_size f.
Proof. opened_proj. Qed.
Lemma opened_ts_size m f : ts_size (data (opened m f)) = ts_size (data m).
Proof. opened_proj. Qed.
Lemma opened_buffer m f :
  Input.buffer (input (data (opened m f))) = Input.buffer (input (data m)).
Proof. opened_proj. Qed.
Lemma opened_size m f :
  Input.size (input (data (opened m f))) = Input.size (input (data m)).
Proof. opened_proj. Qed.
Lemma opened_ptr m f :
  Input.ptr (input (data (opened m f))) = Input.ptr (input (data m)).
Proof. opened_proj. Qed.
Lemma opened_skip m f :
  Input.skip (input (data (opened m f))) = window_offset m f.
Proof.
  unfold opened, window_offset; cbn.
  destruct (Input.skip (input (data m)) =? 0) eqn:E;
    [apply Z.eqb_eq in E; cbn; auto|].
  case_if; reflexivity.
Qed.

Ltac opened_rw :=
  rewrite ?opened_disk, ?opened_uninit, ?opened_channel, ?opened_fd,
    ?opened_file_size, ?opened_ts_size, ?opened_buffer, ?opened_size,
    ?opened_ptr, ?opened_skip.

Lemma seek_pcr_188_first w buffer_end k :
  1 <= k -> k * 188 < buffer_end ->
  check_pcr (index w (k * 188 + 0)) = true ->
  (forall j, 1 <= j < k -> check_pcr (index w (j * 188 + 0)) = false) ->
  seek_pcr_188 w 0 buffer_end = Some (k * 188).
Proof.
  intros Hk Hlt Hc Hb. unfold seek_pcr_188, TS_PACKET_SIZE.
  rewrite (seek_loop_first 188 0 w 0 buffer_end k); auto; try lia.
Qed.

Lemma seek_pcr_192_first w buffer_end k :
  1 <= k -> k * 192 < buffer_end ->
  check_pcr (index w (k * 192 + 4)) = true ->
  (forall j, 1 <= j < k -> check_pcr (index w (j * 192 + 4)) = false) ->
  seek_pcr_192 w 0 buffer_end = Some (k * 192).
Proof.
  intros Hk Hlt Hc Hb. unfold seek_pcr_192, M2TS_PACKET_SIZE.
  rewrite (seek_loop_first 192 4 w 0 buffer_end k); auto; try lia.
Qed.

Lemma seek_pcr_192_none w buffer_end :
  (forall k, 1 <= k -> k * 192 < buffer_end ->
     check_pcr (index w (k * 192 + 4)) = false) ->
  seek_pcr_192 w 0 buffer_end = None.
Proof.
  intros Hn. unfold seek_pcr_192, M2TS_PACKET_SIZE.
  apply seek_loop_none; auto; try lia.
Qed.

(** C6, as the code has it: for every successfully classified probe window,
    the probe sets the cursor to the first packet after the one at the start
    of the window for which [check_pcr] holds (at offset 0 of the packet for
    TS, 4 for M2TS); the packet at the start of the window is not
    examined. *)
Theorem probe_cursor_after_first_packet
    (m : machine) (f : file_t) (ts hdr k : Z) :
  disk m = Some f ->
  fst (probe_read m f) = Input.size (input (data m)) ->
  classify (snd (probe_read m f)) = Some (ts, hdr) ->
  1 <= k -> k * ts < Input.size (input (data m)) ->
  check_pcr (index (snd (probe_read m f)) (k * ts + hdr)) = true ->
  (forall j, 1 <= j < k ->
     check_pcr (index (snd (probe_read m f)) (j * ts + hdr)) = false) ->
  exists m',
    open_file m = Done 1 m' /\
    ts_size (data m') = ts /\
    Input.buffer (input (data m')) = snd (probe_read m f) /\
    Input.ptr (input (data m')) = Some (k * ts).
Proof.
  intros Hf Hfull Hcl Hk Hlt Hc Hbefore.
  rewrite (open_file_opened m f Hf).
  unfold open_file_probe. run_M. opened_rw. rewrite Hf.
  fold (probe_read m f). rewrite Hfull, Z.eqb_refl. cbn.
  unfold classify in Hcl.
  destruct ((snd (probe_read m f) 0 =? 71)
            && (snd (probe_read m f) TS_PACKET_SIZE =? 71)) eqn:Hts.
  - injection Hcl as <- <-. cbn.
    rewrite (seek_pcr_188_first _ _ k Hk Hlt Hc Hbefore). cbn.
    eexists. split; [reflexivity|]. cbn. auto.
  - destruct ((snd (probe_read m f) 4 =? 71)
              && (snd (probe_read m f) (4 + M2TS_PACKET_SIZE) =? 71))
      eqn:Hm2; [|discriminate].
    injection Hcl as <- <-. cbn in *. rewrite Hm2. cbn.
    rewrite (seek_pcr_192_first _ _ k Hk Hlt Hc Hbefore). cbn.
    repeat first [ progress cbn | case_if ];
      (eexists; split; [reflexivity|]; cbn; auto).
Qed.

Lemma probe_cursor_after_first_packet_witness :
  let f := ts_file 6000 (fun k => (k =? 0) || (k =? 2)) in
  let m := started (options_of None (Some 1)) (Some f) None in
  exists m',
    open_file m = Done 1 m' /\
    ts_size (data m') = 188 /\
    Input.buffer (input (data m')) = snd (probe_read m f) /\
    Input.ptr (input (data m')) = Some (2 * 188).
Proof.
  intros f m.
  apply (probe_cursor_after_first_packet m f 188 0 2).
  - reflexivity.
  - vm_compute. reflexivity.
  - vm_compute. reflexivity.
  - lia.
  - vm_compute. reflexivity.
  - vm_compute. reflexivity.
  - intros j Hj. assert (j = 1) as -> by lia. vm_compute. reflexivity.
Defined.

(** C6 as stated fails when the packet at the start of the window carries a
    PCR: in a TS file whose packets 0 and 2 do, [check_pcr] holds of the
    packet at offset 0, and the cursor is set to packet 2. *)
Lemma probe_skips_packet_at_window_start :
  let f := ts_file 6000 (fun k => (k =? 0) || (k =? 2)) in
  returns (open_file (started (options_of None (Some 1)) (Some f) None))
    (fun rc m' =>
       rc = 1 /\
       check_pcr (index (Input.buffer (input (data m'))) 0) = true /\
       Input.ptr (input (data m')) = Some 376 /\
       Input.ptr (input (data m')) <> Some 0).
Proof. vm_compute. repeat split; discriminate. Qed.

Lemma seek_pcr_192_none_inv w buffer_end :
  seek_pcr_192 w 0 buffer_end = None ->
  forall k, 1 <= k -> k * 192 < buffer_end ->
    check_pcr (index w (k * 192 + 4)) = false.
Proof.
  unfold seek_pcr_192, M2TS_PACKET_SIZE. intros Hn k Hk Hlt.
  pose proof (seek_loop_spec 192 4 w buffer_end ltac:(lia)
                (seek_fuel 192 (0 + 192) buffer_end) (0 + 192)) as H.
  rewrite Hn in H.
  specialize (H ltac:(unfold seek_fuel; lia) (k - 1) ltac:(lia) ltac:(lia)).
  replace (0 + 192 + (k - 1) * 192 + 4) with (k * 192 + 4) in H by lia.
  exact H.
Qed.

(** C8: when the window is classified as M2TS and no cell after the first
    satisfies [check_pcr], [open_file] reads [start_time] through the null
    pointer the search returned: it does not reach the branch that reports
    "first PCR is not found". *)
Theorem open_file_m2ts_reads_null_cursor (m : machine) (f : file_t) :
  disk m = Some f ->
  fst (probe_read m f) = Input.size (input (data m)) ->
  classify (snd (probe_read m f)) = Some (M2TS_PACKET_SIZE, 4) ->
  (forall k, 1 <= k -> k * 192 < Input.size (input (data m)) ->
     check_pcr (index (snd (probe_read m f)) (k * 192 + 4)) = false) ->
  open_file m = Stop null_dereference.
Proof.
  intros Hf Hfull Hcl Hnone.
  rewrite (open_file_opened m f Hf).
  unfold open_file_probe. run_M. opened_rw. rewrite Hf.
  fold (probe_read m f). rewrite Hfull, Z.eqb_refl. cbn.
  unfold classify in Hcl.
  destruct ((snd (probe_read m f) 0 =? 71)
            && (snd (probe_read m f) TS_PACKET_SIZE =? 71)) eqn:Hts.
  - discriminate.
  - destruct ((snd (probe_read m f) 4 =? 71)
              && (snd (probe_read m f) (4 + M2TS_PACKET_SIZE) =? 71))
      eqn:Hm2; [|discriminate].
    cbn in *. rewrite Hm2. cbn.
    rewrite (seek_pcr_192_none _ _ Hnone). reflexivity.
Qed.

Lemma open_file_m2ts_reads_null_cursor_witness :
  let f := m2ts_file 6000 (fun k => 1000 * k) (fun _ => false) in
  open_file (started (options_of None (Some 1)) (Some f) None)
  = Stop null_dereference.
Proof.
  intros f.
  apply (open_file_m2ts_reads_null_cursor _ f).
  - reflexivity.
  - vm_compute. reflexivity.
  - vm_compute. reflexivity.
  - apply seek_pcr_192_none_inv. vm_compute. reflexivity.
Defined.

(** The sibling path: a TS window without a PCR after its first packet is
    reported, and the call returns 0 with the file closed. *)
Lemma open_file_ts_without_pcr (m : machine) (f : file_t) :
  disk m = Some f ->
  fst (probe_read m f) = Input.size (input (data m)) ->
  classify (snd (probe_read m f)) = Some (TS_PACKET_SIZE, 0) ->
  seek_pcr_188 (snd (probe_read m f)) 0 (Input.size (input (data m))) = None ->
  exists m',
    open_file m = Done 0 m' /\
    log m' = log (opened m f) ++ [err "first PCR is not found"] /\
    fd (data m') = 0.
Proof.
  intros Hf Hfull Hcl Hnone.
  rewrite (open_file_opened m f Hf).
  unfold open_file_probe. run_M. opened_rw. rewrite Hf.
  fold (probe_read m f). rewrite Hfull, Z.eqb_refl. cbn.
  unfold classify in Hcl.
  destruct ((snd (probe_read m f) 0 =? 71)
            && (snd (probe_read m f) TS_PACKET_SIZE =? 71)) eqn:Hts.
  - cbn. rewrite Hnone. cbn. eexists. split; [reflexivity|]. cbn. auto.
  - destruct ((snd (probe_read m f) 4 =? 71)
              && (snd (probe_read m f) (4 + M2TS_PACKET_SIZE) =? 71));
      discriminate.
Qed.

(** ** The control surface *)

(** C10: [position()] with a nil argument returns 0 and leaves the whole
    state as it was; in particular [reposition] and [file_skip]. *)
Theorem position_nil_changes_nothing (m : machine) :
  method_position None m = Done 0 m.
Proof. reflexivity. Qed.

(** What [position(ms)] does when it is let through: the state it leaves
    and the number it returns, in the 32-bit arithmetic of the code. *)
Lemma method_position_seek (m : machine) (ms p : Z) :
  0 <= ms < length (data m) -> length (data m) <= 2 ^ 32 ->
  ts_size (data m) = M2TS_PACKET_SIZE ->
  Input.ptr (input (data m)) = Some p ->
  let skip :=
    u32 (u32 (ms * u32 (file_size (data m) / 192)) / length (data m) * 192) in
  method_position (Some ms) m
  = Done (u32 (m2ts_time (index (Input.buffer (input (data m))) p) / 1000
               - start_time (data m)))
         (set_data (set_input_skip skip (set_reposition true (data m))) m).
Proof.
  intros Hms Hlen Hts Hp. unfold method_position. run_M.
  assert (Hu : u32 ms = ms) by (unfold u32; apply Z.mod_small; lia).
  rewrite Hu, Hts.
  destruct (length (data m) <=? ms) eqn:E; [apply Z.leb_le in E; lia|].
  cbn. rewrite Hp. reflexivity.
Qed.

(** Without wrap-around the offset is the one of the specification. *)
Lemma method_position_in_range (m : machine) (ms : Z) :
  0 <= ms < length (data m) -> 0 <= file_size (data m) ->
  ms * (file_size (data m) / 192) < 2 ^ 32 ->
  file_size (data m) < 2 ^ 32 ->
  u32 (u32 (ms * u32 (file_size (data m) / 192)) / length (data m) * 192)
  = ms * (file_size (data m) / 192) / length (data m) * 192.
Proof.
  intros Hms Hfs Hmul Hlt.
  set (n := file_size (data m) / 192) in *.
  assert (Hn : 0 <= n) by (apply Z.div_pos; lia).
  assert (Hn' : n * 192 <= file_size (data m))
    by (unfold n; pose proof (Z.mul_div_le (file_size (data m)) 192); lia).
  unfold u32.
  rewrite (Z.mod_small n) by lia.
  rewrite (Z.mod_small (ms * n)) by nia.
  apply Z.mod_small.
  assert (ms * n / length (data m) <= n).
  { apply Z.div_le_upper_bound; nia. }
  assert (0 <= ms * n / length (data m)) by (apply Z.div_pos; nia).
  lia.
Qed.

(** What [position(ms)] does when it is not let through. *)
Lemma method_position_refused (m : machine) (ms : Z) :
  0 <= ms < 2 ^ 32 ->
  length (data m) <= ms \/ ts_size (data m) <> M2TS_PACKET_SIZE ->
  method_position (Some ms) m = Done 0 m.
Proof.
  intros Hms H. unfold method_position. run_M.
  assert (Hu : u32 ms = ms) by (unfold u32; apply Z.mod_small; lia).
  rewrite Hu.
  destruct H as [H|H].
  - apply Z.leb_le in H. rewrite H. reflexivity.
  - apply Z.eqb_neq in H. rewrite H, orb_true_r. reflexivity.
Qed.

(** C4, where the code departs from it: on a recording of 192 MB opened with
    the default window ([length] 99_998 ms), [position(50000)] multiplies in
    32 bits; the product wraps and [file_skip] becomes 5_290_368, where the
    specification gives 96_001_920. *)
Theorem method_position_wraps_at_32_bits :
  let m := after open_file
             (started (options_of None None) (Some long_m2ts) None) in
  ts_size (data m) = 192 /\ length (data m) = 99998 /\
  50000 * (file_size (data m) / 192) / length (data m) * 192 = 96001920 /\
  returns (method_position (Some 50000) m)
    (fun _ m' =>
       reposition (data m') = true /\
       Input.skip (input (data m')) = 5290368).
Proof. vm_compute. repeat split; reflexivity. Qed.

(** ** The producer thread *)

(** C3: when the refill reads fewer than [input.size] bytes, then with
    [loop] set [file_skip] becomes 0, [reposition] is raised, nothing is
    sent on the signal channel and the loop continues; with [loop] unset
    exactly the byte 0xFF is sent, the ring is left as it was, and the loop
    is left. *)
Theorem thread_loop_refill_short_read (m : machine) (p : Z) :
  Input.ptr (input (data m)) = Some p ->
  next_block_end m p = None ->
  fst (refill_read m p) <> Input.size (input (data m)) ->
  exists m',
    thread_loop_refill m
    = Done (if loop (data m) then loop_continue else loop_break) m' /\
    sync (data m') = sync (data m) /\
    Input.ptr (input (data m')) = Some 0 /\
    if loop (data m) then
      Input.skip (input (data m')) = 0 /\
      reposition (data m') = true /\
      channel m' = channel m
    else
      channel m' = channel m ++ [0xFF].
Proof.
  intros Hp Hnone Hshort.
  unfold next_block_end, refill_read in *.
  apply Z.eqb_neq in Hshort.
  unfold thread_loop_refill, sync_queue_push. run_M.
  rewrite Hp. cbn.
  destruct (ts_size (data m) =? TS_PACKET_SIZE); rewrite Hnone; cbn;
    rewrite Hshort; cbn;
    destruct (loop (data m)); cbn;
    (eexists; split; [reflexivity|]; cbn; auto).
Qed.

Lemma thread_loop_refill_short_read_witness :
  let f := ts_file 5578 (fun k => (k =? 0) || (k =? 2)) in
  let m := after open_file (started (options_of None (Some 1)) (Some f) None) in
  exists m',
    thread_loop_refill m = Done loop_break m' /\
    sync (data m') = sync (data m) /\
    channel m' = channel m ++ [0xFF].
Proof.
  intros f m.
  destruct (thread_loop_refill_short_read m 376) as (m' & H1 & H2 & H3 & H4).
  - vm_compute. reflexivity.
  - vm_compute. reflexivity.
  - vm_compute. discriminate.
  - exists m'. repeat split; [exact H1 | exact H2 | exact H4].
Defined.

(** C5, as the code has it: when the clock reading at the end of the block
    is smaller than the one stored at its start, the loop logs "timetravel
    detected" and sets [total_sync_diff] to -1000000.0 ms; this is out of
    the range of 100 ms that the next test allows, so the loop then logs
    "wrong syncing time", takes a new start reading, and resets
    [block_time_total], [total_sync_diff] and [pause_total] to 0. *)
Theorem stream_sync_timetravel (v : sync_vars) (m : machine) :
  u64 (clock m (clock_reads m)) < time_sync_b v ->
  returns (stream_sync_diff v m)
    (fun v' m' =>
       total_sync_diff v' = (-1000000)%float /\
       log m' = log m ++ [warn "timetravel detected"]) /\
  returns (stream_sync v m)
    (fun v' m' =>
       v' = {| time_sync_b := u64 (clock m (S (clock_reads m)));
               block_time_total := 0%float;
               total_sync_diff := 0%float;
               pause_total := 0%float |} /\
       log m' = log m ++ [warn "timetravel detected";
                          Build_log_entry warning
                            "wrong syncing time: %.2fms. reset time values"
                            [arg_double (-1000000)%float]]).
Proof.
  intros Hlt. apply Z.ltb_lt in Hlt.
  unfold stream_sync, stream_sync_reset, stream_sync_diff, returns. run_M.
  rewrite Hlt. cbn. split; [split; reflexivity|].
  split; [reflexivity|]. rewrite <- app_assoc. reflexivity.
Qed.

Lemma stream_sync_timetravel_witness :
  let m := boot None None true zeros (fun n => 5) in
  returns (stream_sync sample_sync_vars m)
    (fun v' m' => total_sync_diff v' = 0%float /\ List.length (log m') = 2%nat).
Proof.
  intro m.
  destruct (stream_sync_timetravel sample_sync_vars m) as [_ H].
  - vm_compute. reflexivity.
  - unfold returns in *.
    destruct (stream_sync sample_sync_vars m) as [v' m'|]; [|exact H].
    destruct H as [-> ->]. split; reflexivity.
Defined.

(** C5 as stated fails: with a start reading of 10 and an end reading of 5,
    [total_sync_diff] is not -1000 ms, neither after the branch on the
    clock (-1000000 ms) nor at the end of the stream syncing (0). *)
Lemma timetravel_is_not_minus_1000 :
  let m := boot None None true zeros (fun n => 5) in
  returns (stream_sync_diff sample_sync_vars m)
    (fun v' _ => (total_sync_diff v' =? -1000)%float = false) /\
  returns (stream_sync sample_sync_vars m)
    (fun v' _ => (total_sync_diff v' =? -1000)%float = false).
Proof. vm_compute. split; reflexivity. Qed.

(** ** The lock file *)

Lemma c_string_S s at_ n :
  c_string s at_ (S n)
  = if s at_ =? 0 then [] else s at_ :: c_string s (at_ + 1) n.
Proof. reflexivity. Qed.

(** What [strtoul] scans agrees with what [read] stored. *)
Lemma c_string_agree (n : nat) :
  forall (bytes : list Z) (s : mem) (at_ : Z),
    (forall i, (i < n)%nat -> (i < List.length bytes)%nat ->
       s (at_ + Z.of_nat i) = nth i bytes 0) ->
    agree bytes (c_string s at_ n).
Proof.
  induction n as [|n IH]; intros bytes s at_ H.
  - constructor.
  - rewrite c_string_S. destruct (s at_ =? 0) eqn:E; [constructor|].
    destruct bytes as [|b bytes]; [constructor|].
    specialize (H 0%nat ltac:(lia) ltac:(cbn; lia)) as H0.
    cbn in H0. rewrite Z.add_0_r in H0. rewrite H0.
    constructor. apply IH. intros i Hi Hb.
    specialize (H (S i) ltac:(lia) ltac:(cbn; lia)). cbn [nth] in H.
    rewrite <- H. f_equal. lia.
Qed.

Lemma strtoul_nil : strtoul [] = 0.
Proof. reflexivity. Qed.

Lemma strtoul_space c l : isspace c = true -> strtoul (c :: l) = strtoul l.
Proof. intros H. unfold strtoul. cbn [skip_space]. rewrite H. reflexivity. Qed.

Lemma digits_value_stop c l a :
  isdigit c = false -> digits_value (c :: l) a = a.
Proof. intros H. cbn [digits_value]. rewrite H. reflexivity. Qed.

Lemma strtoul_no_number bytes l :
  agree bytes l -> no_number bytes = true -> strtoul l = 0.
Proof.
  induction 1 as [l|b|c b l Hag IH]; intros Hn.
  - discriminate.
  - reflexivity.
  - destruct (isspace c) eqn:Hsp.
    + rewrite (strtoul_space c l Hsp). apply IH.
      unfold no_number in *. cbn [skip_space] in Hn. rewrite Hsp in Hn.
      exact Hn.
    + unfold no_number in Hn. unfold strtoul.
      cbn [skip_space] in *. rewrite Hsp in *. cbn [strtoul_sign] in *.
      destruct (c =? 45) eqn:E45; [|destruct (c =? 43) eqn:E43];
        cbn [fst snd] in *.
      * destruct b as [|c2 b]; [discriminate|].
        apply negb_true_iff in Hn.
        inversion Hag; subst; [reflexivity|].
        rewrite (digits_value_stop _ _ _ Hn). reflexivity.
      * destruct b as [|c2 b]; [discriminate|].
        apply negb_true_iff in Hn.
        inversion Hag; subst; [reflexivity|].
        rewrite (digits_value_stop _ _ _ Hn). reflexivity.
      * apply negb_true_iff in Hn.
        rewrite (digits_value_stop _ _ _ Hn). reflexivity.
Qed.

Lemma module_init_lock_reads m path bytes :
  lock (data m) = Some path ->
  lock_file m = Some bytes ->
  bytes <> [] ->
  module_init_lock m
  = if scan_inside m bytes then
      Done tt
        (set_data
           (set_timer_skip true
              (set_input_skip
                 (strtoul (c_string (skip_str_after_read m bytes) 0 64))
                 (data m)))
           m)
    else Stop reads_past_array.
Proof.
  intros Hlk Hl Hne.
  assert (Hlen : (0 <? Z.min 64 (Z.of_nat (List.length bytes))) = true).
  { apply Z.ltb_lt. destruct bytes; [congruence|]. cbn [List.length]. lia. }
  unfold module_init_lock, scan_inside, strtoul_skip_str,
    skip_str_after_read, bind, get, sys_open_lock, sys_read_lock,
    local_array, sys_close, modify, ret, halt.
  rewrite Hlk, Hl. cbn [fst snd Z.eqb Z.leb Z.compare].
  rewrite Hl. cbn [fst snd]. rewrite Hlen.
  match goal with |- context [if ?c then Done _ _ else Stop _] =>
    destruct c end; reflexivity.
Qed.

Lemma skip_str_agree m bytes :
  agree bytes (c_string (skip_str_after_read m bytes) 0 64).
Proof.
  apply c_string_agree. intros i Hi Hb. unfold skip_str_after_read, memcpy.
  replace ((0 <=? 0 + Z.of_nat i)
           && (0 + Z.of_nat i <? 0 + Z.min 64 (Z.of_nat (List.length bytes))))
    with true
    by (symmetry; apply andb_true_iff; split;
        [apply Z.leb_le | apply Z.ltb_lt]; lia).
  f_equal. lia.
Qed.

(** [module_init], the options: the instance is changed in its option
    fields only. *)
Lemma module_init_options_spec o m :
  exists m5,
    module_init_options o m = Done tt m5 /\
    lock (data m5) = opt_lock o /\
    lock_file m5 = lock_file m /\ uninit m5 = uninit m /\
    disk m5 = disk m /\ channel m5 = channel m /\ log m5 = log m /\
    fd (data m5) = fd (data m) /\
    sync (data m5) = sync (data m) /\
    input (data m5) = input (data m) /\
    timer_skip (data m5) = timer_skip (data m).
Proof.
  unfold module_init_options, bind, modify, ret.
  destruct (opt_callback o); eexists; (split; [reflexivity|]);
    cbn; auto 12.
Qed.

(** [module_init], the lock file: the call reads past [skip_str], or it
    returns with the offset [strtoul] made of a lock file that is not
    empty. *)
Lemma module_init_lock_spec m :
  if match lock (data m), lock_file m with
     | Some _, Some (b :: bytes) => negb (scan_inside m (b :: bytes))
     | _, _ => false
     end
  then module_init_lock m = Stop reads_past_array
  else
    exists m',
      module_init_lock m = Done tt m' /\
      Input.skip (input (data m'))
      = match lock (data m), lock_file m with
        | Some _, Some (b :: bytes) =>
            strtoul (c_string (skip_str_after_read m (b :: bytes)) 0 64)
        | _, _ => Input.skip (input (data m))
        end /\
      timer_skip (data m')
      = match lock (data m) with
        | Some _ => true
        | None => timer_skip (data m)
        end /\
      sync (data m') = sync (data m) /\
      Input.buffer (input (data m')) = Input.buffer (input (data m)) /\
      Input.ptr (input (data m')) = Input.ptr (input (data m)) /\
      Input.size (input (data m')) = Input.size (input (data m)) /\
      fd (data m') = fd (data m) /\
      lock_file m' = lock_file m /\ uninit m' = uninit m /\
      disk m' = disk m /\ channel m' = channel m /\ log m' = log m.
Proof.
  destruct (lock (data m)) as [path|] eqn:Hlk.
  - destruct (lock_file m) as [[|b bytes]|] eqn:Hl.
    + unfold module_init_lock, bind, get, sys_open_lock, sys_read_lock,
        local_array, sys_close, modify, ret.
      rewrite Hlk, Hl. cbn [fst snd Z.eqb Z.leb Z.compare]. rewrite Hl.
      cbn [fst snd List.length Z.of_nat Z.min Z.compare Z.ltb Z.leb].
      eexists. split; [reflexivity|]. cbn. rewrite Hl. auto 15.
    + rewrite (module_init_lock_reads m path (b :: bytes) Hlk Hl)
        by discriminate.
      destruct (scan_inside m (b :: bytes)); cbn [negb]; [|reflexivity].
      eexists. split; [reflexivity|]. cbn. auto 15.
    + unfold module_init_lock, bind, get, sys_open_lock, sys_read_lock,
        local_array, sys_close, modify, ret.
      rewrite Hlk, Hl. cbn [fst snd Z.eqb Z.leb Z.compare]. rewrite Hl.
      cbn [fst snd Z.ltb Z.compare].
      eexists. split; [reflexivity|]. cbn. rewrite Hl. auto 15.
  - unfold module_init_lock, bind, get, ret. rewrite Hlk.
    eexists. split; [reflexivity|]. auto 15.
Qed.

(** [module_init], the ring and the window: the ring has its capacity and
    its memory, the window its size; the cursor is at the start of the
    window, or null when the window could not be allocated. *)
Lemma module_init_buffers_spec o m :
  exists m',
    module_init_buffers o m = Done tt m' /\
    Sync.buffer_size (sync (data m')) = SYNC_BUFFER_SIZE /\
    Sync.buffer_count (sync (data m')) = Sync.buffer_count (sync (data m)) /\
    Sync.buffer_read (sync (data m')) = Sync.buffer_read (sync (data m)) /\
    Sync.buffer_write (sync (data m')) = Sync.buffer_write (sync (data m)) /\
    Sync.buffer_overflow (sync (data m'))
    = Sync.buffer_overflow (sync (data m)) /\
    Input.size (input (data m')) = window_size o /\
    Input.ptr (input (data m'))
    = (if window_size o <=? PTRDIFF_MAX then Some 0 else None) /\
    Input.skip (input (data m')) = Input.skip (input (data m)) /\
    timer_skip (data m') = timer_skip (data m) /\
    fd (data m') = fd (data m) /\
    lock_file m' = lock_file m /\ disk m' = disk m /\
    channel m' = channel m /\ log m' = log m.
Proof.
  assert (Hsize : u64 (i32 (match opt_buffer_size o with
                            | Some n => if n <=? 0 then INPUT_BUFFER_SIZE
                                        else n
                            | None => INPUT_BUFFER_SIZE
                            end * 1024 * 1024)) = window_size o).
  { unfold window_size. destruct (opt_buffer_size o) as [n|];
      [destruct (n <=? 0)|]; reflexivity. }
  unfold module_init_buffers, bind, local_array, get, modify, sys_malloc.
  cbv zeta. rewrite Hsize.
  destruct (window_size o <=? PTRDIFF_MAX);
    (eexists; split; [reflexivity|]); cbn; auto 15.
Qed.

(** [module_init] as a whole: it reads past [skip_str], or it returns. *)
Lemma module_init_cases o m :
  if lock_overruns o m then module_init o m = Stop reads_past_array
  else
    exists m',
      module_init o m = Done tt m' /\
      Input.skip (input (data m'))
      = match opt_lock o, lock_file m with
        | Some _, Some (b :: bytes) =>
            strtoul (c_string (skip_str_after_read m (b :: bytes)) 0 64)
        | _, _ => Input.skip (input (data m))
        end /\
      timer_skip (data m')
      = match opt_lock o with
        | Some _ => true
        | None => timer_skip (data m)
        end /\
      Sync.buffer_size (sync (data m')) = SYNC_BUFFER_SIZE /\
      Sync.buffer_count (sync (data m')) = Sync.buffer_count (sync (data m)) /\
      Sync.buffer_read (sync (data m')) = Sync.buffer_read (sync (data m)) /\
      Sync.buffer_write (sync (data m'))
      = Sync.buffer_write (sync (data m)) /\
      Sync.buffer_overflow (sync (data m'))
      = Sync.buffer_overflow (sync (data m)) /\
      Input.size (input (data m')) = window_size o /\
      Input.ptr (input (data m'))
      = (if window_size o <=? PTRDIFF_MAX then Some 0 else None) /\
      fd (data m') = fd (data m) /\
      lock_file m' = lock_file m /\ disk m' = disk m /\
      channel m' = channel m /\ log m' = log m.
Proof.
  unfold module_init, lock_overruns, bind.
  destruct (module_init_options_spec o m)
    as (m5 & -> & Hlk & Hlf & Hun & Hd & Hch & Hlog & Hfd & Hsy & Hin & Htm).
  pose proof (module_init_lock_spec m5) as H.
  assert (Hscan : forall bytes, scan_inside m5 bytes = scan_inside m bytes).
  { intros. unfold scan_inside, skip_str_after_read. rewrite Hun.
    reflexivity. }
  assert (Hstr : forall bytes,
             skip_str_after_read m5 bytes = skip_str_after_read m bytes).
  { intros. unfold skip_str_after_read. rewrite Hun. reflexivity. }
  rewrite Hlk, Hlf in H.
  assert (Hover :
            match opt_lock o, lock_file m with
            | Some _, Some (b :: bytes) => negb (scan_inside m5 (b :: bytes))
            | _, _ => false
            end
            = match opt_lock o, lock_file m with
              | Some _, Some (b :: bytes) => negb (scan_inside m (b :: bytes))
              | _, _ => false
              end).
  { destruct (opt_lock o); [|reflexivity].
    destruct (lock_file m) as [[|b bytes]|]; [reflexivity| |reflexivity].
    rewrite Hscan. reflexivity. }
  rewrite Hover in H.
  destruct (match opt_lock o, lock_file m with
            | Some _, Some (b :: bytes) => negb (scan_inside m (b :: bytes))
            | _, _ => false
            end).
  - rewrite H. reflexivity.
  - destruct H as (m6 & -> & Hsk6 & Htm6 & Hsy6 & _ & _ & _ & Hfd6 & Hlf6
                   & Hun6 & Hd6 & Hch6 & Hlog6).
    destruct (module_init_buffers_spec o m6)
      as (m7 & -> & Hz & Hc & Hr & Hw & Ho & Hsz & Hp & Hsk7 & Htm7 & Hfd7
          & Hlf7 & Hd7 & Hch7 & Hlog7).
    exists m7. split; [reflexivity|].
    split.
    { rewrite Hsk7, Hsk6, Hin.
      destruct (opt_lock o); [|reflexivity].
      destruct (lock_file m) as [[|b bytes]|]; [reflexivity| |reflexivity].
      rewrite Hstr. reflexivity. }
    split.
    { rewrite Htm7, Htm6, Htm. reflexivity. }
    repeat split; congruence.
Qed.

(** [module_init] when the lock file holds [bytes] over which the scan of
    [strtoul] stays inside [skip_str]: the offset is what [strtoul] makes
    of [skip_str], and nothing is logged. *)
Lemma module_init_reads_lock o m path bytes :
  opt_lock o = Some path ->
  lock_file m = Some bytes ->
  bytes <> [] ->
  scan_inside m bytes = true ->
  exists m',
    module_init o m = Done tt m' /\
    Input.skip (input (data m'))
    = strtoul (c_string (skip_str_after_read m bytes) 0 64) /\
    disk m' = disk m /\ fd (data m') = fd (data m) /\ log m' = log m.
Proof.
  intros Ho Hl Hne Hscan.
  pose proof (module_init_cases o m) as H.
  unfold lock_overruns in H. rewrite Ho, Hl in H.
  destruct bytes as [|b bytes]; [congruence|].
  rewrite Hscan in H. cbn [negb] in H.
  destruct H as (m' & Hrun & Hsk & _ & _ & _ & _ & _ & _ & _ & _ & Hfd & _
                 & Hd & _ & Hlog).
  exists m'. auto.
Qed.

(** When the scan does not stay inside [skip_str], [module_init] reads past
    the array. *)
Lemma module_init_reads_past_array o m path bytes :
  opt_lock o = Some path ->
  lock_file m = Some bytes ->
  bytes <> [] ->
  scan_inside m bytes = false ->
  module_init o m = Stop reads_past_array.
Proof.
  intros Ho Hl Hne Hscan.
  pose proof (module_init_cases o m) as H.
  unfold lock_overruns in H. rewrite Ho, Hl in H.
  destruct bytes as [|b bytes]; [congruence|].
  rewrite Hscan in H. exact H.
Qed.

Lemma agree_firstn k : forall bytes l,
  agree bytes l -> agree (firstn k bytes) l.
Proof.
  induction k as [|k IH]; intros bytes l H.
  - constructor.
  - destruct H as [l|b|c b l H]; cbn [firstn].
    + constructor.
    + constructor.
    + constructor. apply IH. exact H.
Qed.

Lemma agree_prefix bytes l :
  agree bytes l -> (List.length bytes <= List.length l)%nat ->
  exists r, l = bytes ++ r.
Proof.
  induction 1 as [l|b|c b l H IH]; intros Hlen.
  - exists l. reflexivity.
  - destruct b; [exists []; reflexivity | cbn in Hlen; lia].
  - destruct IH as [r ->]; [cbn in Hlen; lia|].
    exists r. reflexivity.
Qed.

Lemma strtoul_stops_no_number bytes r :
  no_number bytes = true -> strtoul_stops (bytes ++ r) = true.
Proof.
  induction bytes as [|c bytes IH]; intros Hn; [discriminate|].
  unfold no_number, strtoul_stops in *.
  cbn [app skip_space] in *.
  destruct (isspace c) eqn:Hsp; [apply IH; exact Hn|].
  cbn [strtoul_sign] in *.
  destruct (c =? 45); [|destruct (c =? 43)]; cbn [fst snd] in *.
  - destruct bytes as [|c2 bytes]; [discriminate|].
    cbn [app existsb]. rewrite Hn. reflexivity.
  - destruct bytes as [|c2 bytes]; [discriminate|].
    cbn [app existsb]. rewrite Hn. reflexivity.
  - cbn [existsb]. rewrite Hn. reflexivity.
Qed.

(** A lock file whose first 64 bytes hold, after white space and an
    optional sign, a byte that is no digit: the scan ends on that byte. *)
Lemma scan_inside_no_number m bytes :
  no_number (firstn 64 bytes) = true -> scan_inside m bytes = true.
Proof.
  intros Hn. unfold scan_inside. cbv zeta.
  destruct (List.length (c_string (skip_str_after_read m bytes) 0 64) <? 64)%nat
    eqn:E; [reflexivity|].
  apply Nat.ltb_ge in E. cbn [orb].
  destruct (agree_prefix (firstn 64 bytes) _
              (agree_firstn 64 _ _ (skip_str_agree m bytes)))
    as [r ->].
  - rewrite length_firstn. lia.
  - apply strtoul_stops_no_number. exact Hn.
Qed.

(** Where the offset does become 0: if a lock path is configured and the
    first 64 bytes of the lock file hold, after white space and an optional
    sign, a byte that is no digit, [module_init] sets the offset to 0: the
    file is read from its beginning, and nothing is logged. *)
Lemma lock_without_number_starts_at_zero
    (o : options) (m : machine) (path : string) (bytes : list Z) :
  opt_lock o = Some path ->
  lock_file m = Some bytes ->
  no_number (firstn 64 bytes) = true ->
  exists m',
    module_init o m = Done tt m' /\
    Input.skip (input (data m')) = 0 /\
    (forall f, window_offset m' f = 0) /\
    log m' = log m.
Proof.
  intros Ho Hl Hn.
  assert (Hne : bytes <> []) by (intros ->; discriminate).
  destruct (module_init_reads_lock o m path bytes Ho Hl Hne
              (scan_inside_no_number m bytes Hn))
    as (m' & Hrun & Hskip & _ & _ & Hlog).
  rewrite (strtoul_no_number (firstn 64 bytes) _
             (agree_firstn 64 _ _ (skip_str_agree m bytes)) Hn) in Hskip.
  exists m'. repeat split; auto.
  intros f. unfold window_offset. rewrite Hskip. reflexivity.
Qed.

Lemma lock_without_number_starts_at_zero_witness :
  let o := options_of (Some "input.lock"%string) None in
  let m := boot (Some three_cells) (Some [32; 45; 120; 49; 50]) true zeros
                (fun _ => 0) in
  exists m',
    module_init o m = Done tt m' /\
    Input.skip (input (data m')) = 0 /\
    (forall f, window_offset m' f = 0) /\
    log m' = log m.
Proof.
  intros o m.
  apply (lock_without_number_starts_at_zero o m "input.lock"
           [32; 45; 120; 49; 50]); reflexivity.
Defined.

(** C9, where the code departs from it: [skip_str] is not terminated, so a
    lock file of white space only is parsed together with what the stack
    held before.  On a lock file that holds a single newline the offset
    becomes 5 when the byte after it in [skip_str] is the digit 5, and 0
    when it is NUL: the offset is not 0 whatever the lock file holds. *)
Theorem lock_of_white_space_reads_stack :
  let o := options_of (Some "input.lock"%string) None in
  let stack : mem := fun i => if i =? 1 then 53 else 0 in
  returns (module_init o (boot (Some three_cells) (Some [10]) true stack
                               (fun _ => 0)))
    (fun _ m' => Input.skip (input (data m')) = 5 /\ log m' = []) /\
  returns (module_init o (boot (Some three_cells) (Some [10]) true zeros
                               (fun _ => 0)))
    (fun _ m' => Input.skip (input (data m')) = 0 /\ log m' = []).
Proof. vm_compute. repeat split; reflexivity. Qed.

(** A lock file of 64 blanks and a letter: [read] fills [skip_str], and the
    scan of [strtoul] leaves the array. *)
Lemma lock_of_64_blanks_reads_past_array :
  module_init (options_of (Some "input.lock"%string) None)
              (boot (Some three_cells) (Some (repeat 32 64 ++ [120])) true
                    zeros (fun _ => 0))
  = Stop reads_past_array.
Proof. vm_compute. reflexivity. Qed.

(** *** Decimal digits read back *)

Lemma decimal_app f : forall n acc, decimal f n acc = decimal f n [] ++ acc.
Proof.
  induction f as [|f IH]; intros n acc; cbn [decimal]; [reflexivity|].
  destruct (n / 10 =? 0); [reflexivity|].
  rewrite (IH (n / 10) (_ :: acc)), (IH (n / 10) [_]).
  rewrite <- app_assoc. reflexivity.
Qed.

Lemma decimal_S f n :
  decimal (S f) n []
  = (if n / 10 =? 0 then [] else decimal f (n / 10) []) ++ [48 + n mod 10].
Proof.
  cbn [decimal]. destruct (n / 10 =? 0); [reflexivity|].
  apply decimal_app.
Qed.

Lemma isdigit_mod n : isdigit (48 + n mod 10) = true.
Proof.
  unfold isdigit. pose proof (Z.mod_pos_bound n 10 ltac:(lia)).
  apply andb_true_iff. split; [apply Z.leb_le | apply Z.leb_le]; lia.
Qed.

Lemma decimal_isdigit f : forall n,
  Forall (fun c => isdigit c = true) (decimal f n []).
Proof.
  induction f as [|f IH]; intros n; [constructor|].
  rewrite decimal_S. apply Forall_app. split.
  - destruct (n / 10 =? 0); [constructor | apply IH].
  - constructor; [apply isdigit_mod | constructor].
Qed.

Lemma decimal_length f : forall n, (List.length (decimal f n []) <= f)%nat.
Proof.
  induction f as [|f IH]; intros n; [cbn; lia|].
  rewrite decimal_S, length_app. cbn [List.length].
  destruct (n / 10 =? 0); [cbn; lia|]. specialize (IH (n / 10)). lia.
Qed.

Lemma digits_value_app ds : forall rest a,
  Forall (fun c => isdigit c = true) ds ->
  digits_value (ds ++ rest) a
  = digits_value rest (fold_left (fun v c => v * 10 + (c - 48)) ds a).
Proof.
  induction ds as [|d ds IH]; intros rest a H; [reflexivity|].
  inversion H as [|? ? Hd Hds]; subst. cbn [app digits_value fold_left].
  rewrite Hd. apply IH; auto.
Qed.

Lemma decimal_value f : forall n a,
  0 <= n < 10 ^ Z.of_nat f ->
  fold_left (fun v c => v * 10 + (c - 48)) (decimal f n []) a
  = a * 10 ^ Z.of_nat (List.length (decimal f n [])) + n.
Proof.
  induction f as [|f IH]; intros n a Hn.
  - cbn in *. lia.
  - rewrite decimal_S, fold_left_app, length_app. cbn [fold_left List.length].
    rewrite Nat2Z.inj_add.
    rewrite Z.pow_add_r by apply Nat2Z.is_nonneg.
    change (10 ^ Z.of_nat 1) with 10.
    pose proof (Z_div_mod_eq_full n 10) as Hdm.
    destruct (n / 10 =? 0) eqn:E.
    + apply Z.eqb_eq in E. cbn [fold_left List.length].
      change (10 ^ Z.of_nat 0) with 1. lia.
    + rewrite IH.
      * lia.
      * rewrite Nat2Z.inj_succ, Z.pow_succ_r in Hn by apply Nat2Z.is_nonneg.
        split; [apply Z.div_pos; lia|].
        apply Z.div_lt_upper_bound; lia.
Qed.

Lemma strtoul_sprintf_lu n rest :
  0 <= n <= ULONG_MAX ->
  match rest with [] => True | c :: _ => isdigit c = false end ->
  strtoul (sprintf_lu n ++ rest) = n.
Proof.
  intros Hn Hrest. unfold sprintf_lu.
  pose proof (decimal_isdigit 20 n) as Hd.
  assert (Hmax : ULONG_MAX < 10 ^ Z.of_nat 20) by reflexivity.
  assert (Hv : digits_value (decimal 20 n [] ++ rest) 0 = n).
  { rewrite digits_value_app by exact Hd.
    rewrite decimal_value by lia.
    destruct rest as [|c rest]; cbn [digits_value]; [lia|].
    rewrite Hrest. lia. }
  rewrite decimal_S in Hd, Hv |- *.
  generalize dependent (if n / 10 =? 0 then [] else decimal 19 (n / 10) []).
  intros front Hd Hv.
  destruct (front ++ [48 + n mod 10]) as [|c l] eqn:E.
  { apply app_eq_nil in E. destruct E as [_ E]. discriminate E. }
  apply Forall_inv in Hd.
  assert (Hc : 48 <= c <= 57).
  { unfold isdigit in Hd. apply andb_true_iff in Hd.
    destruct Hd as [H1 H2]. apply Z.leb_le in H1, H2. lia. }
  assert (Hsp : isspace c = false).
  { unfold isspace. apply orb_false_iff. split; [apply Z.eqb_neq; lia|].
    apply andb_false_iff. right. apply Z.leb_gt. lia. }
  assert (H45 : (c =? 45) = false) by (apply Z.eqb_neq; lia).
  assert (H43 : (c =? 43) = false) by (apply Z.eqb_neq; lia).
  unfold strtoul. cbn [app skip_space]. rewrite Hsp.
  cbn [strtoul_sign]. rewrite H45, H43. cbn [fst snd].
  change ((c :: l) ++ rest) with (c :: l ++ rest) in Hv. rewrite Hv.
  destruct (ULONG_MAX <? n) eqn:Hgt; [apply Z.ltb_lt in Hgt; lia|].
  reflexivity.
Qed.

Lemma c_string_app bytes : forall s at_ n,
  Forall (fun c => isdigit c = true) bytes ->
  (forall i, (i < List.length bytes)%nat ->
     s (at_ + Z.of_nat i) = nth i bytes 0) ->
  (List.length bytes <= n)%nat ->
  c_string s at_ n
  = bytes ++ c_string s (at_ + Z.of_nat (List.length bytes))
                      (n - List.length bytes).
Proof.
  induction bytes as [|b bytes IH]; intros s at_ n Hd Hs Hn.
  - cbn. rewrite Z.add_0_r, Nat.sub_0_r. reflexivity.
  - destruct n as [|n]; [cbn in Hn; lia|].
    inversion Hd as [|? ? Hb Hbs]; subst.
    rewrite c_string_S.
    specialize (Hs 0%nat ltac:(cbn; lia)) as H0. cbn in H0.
    rewrite Z.add_0_r in H0. rewrite H0.
    assert (Hnz : (b =? 0) = false).
    { unfold isdigit in Hb. apply andb_true_iff in Hb.
      destruct Hb as [H1 _]. apply Z.leb_le in H1. apply Z.eqb_neq. lia. }
    rewrite Hnz. cbn [app]. f_equal.
    rewrite (IH s (at_ + 1) n Hbs).
    + cbn [List.length]. f_equal. f_equal; lia.
    + intros i Hi. specialize (Hs (S i) ltac:(cbn; lia)). cbn [nth] in Hs.
      rewrite <- Hs. f_equal. lia.
    + cbn in Hn. lia.
Qed.

Lemma c_string_head s at_ n :
  match c_string s at_ n with [] => True | c :: _ => c = s at_ end.
Proof.
  destruct n as [|n]; [exact I|]. rewrite c_string_S.
  destruct (s at_ =? 0); auto.
Qed.

(** [skip_str] after the reading of a lock file the timer wrote: the
    digits, then nothing or the bytes the stack held. *)
Lemma skip_str_digits m n :
  let s := c_string (skip_str_after_read m (sprintf_lu n)) 0 64 in
  s = sprintf_lu n
  \/ exists r,
       s = sprintf_lu n
           ++ uninit m (Z.of_nat (List.length (sprintf_lu n))) :: r.
Proof.
  pose proof (decimal_length 20 n) as Hlen. fold (sprintf_lu n) in Hlen.
  pose proof (decimal_isdigit 20 n) as Hd. fold (sprintf_lu n) in Hd.
  assert (Hin : forall i, (i < List.length (sprintf_lu n))%nat ->
            skip_str_after_read m (sprintf_lu n) (0 + Z.of_nat i)
            = nth i (sprintf_lu n) 0).
  { intros i Hi. unfold skip_str_after_read, memcpy.
    replace ((0 <=? 0 + Z.of_nat i)
             && (0 + Z.of_nat i
                 <? 0 + Z.min 64 (Z.of_nat (List.length (sprintf_lu n)))))
      with true
      by (symmetry; apply andb_true_iff; split;
          [apply Z.leb_le | apply Z.ltb_lt]; lia).
    f_equal. lia. }
  cbv zeta.
  rewrite (c_string_app (sprintf_lu n) _ 0 64 Hd Hin) by lia.
  pose proof (c_string_head (skip_str_after_read m (sprintf_lu n))
                (0 + Z.of_nat (List.length (sprintf_lu n)))
                (64 - List.length (sprintf_lu n))) as Hh.
  destruct (c_string _ _ _) as [|c r].
  - left. apply app_nil_r.
  - right. exists r. subst c. f_equal. f_equal.
    unfold skip_str_after_read, memcpy.
    replace ((0 <=? 0 + Z.of_nat (List.length (sprintf_lu n)))
             && (0 + Z.of_nat (List.length (sprintf_lu n))
                 <? 0 + Z.min 64 (Z.of_nat (List.length (sprintf_lu n)))))
      with false
      by (symmetry; apply andb_false_iff; right; apply Z.ltb_ge; lia).
    reflexivity.
Qed.

(** The offset written by the timer is read back, when the byte that
    follows the digits in [skip_str] is no digit. *)
Lemma skip_str_round_trip m n :
  0 <= n <= ULONG_MAX ->
  isdigit (uninit m (Z.of_nat (List.length (sprintf_lu n)))) = false ->
  strtoul (c_string (skip_str_after_read m (sprintf_lu n)) 0 64) = n.
Proof.
  intros Hn Hg.
  destruct (skip_str_digits m n) as [->|[r ->]].
  - rewrite <- (app_nil_r (sprintf_lu n)).
    apply strtoul_sprintf_lu; [exact Hn | exact I].
  - apply strtoul_sprintf_lu; [exact Hn | exact Hg].
Qed.

(** The scan of these digits ends inside [skip_str]: on the byte that
    follows them. *)
Lemma skip_str_scan_inside m n :
  isdigit (uninit m (Z.of_nat (List.length (sprintf_lu n)))) = false ->
  scan_inside m (sprintf_lu n) = true.
Proof.
  intros Hg. unfold scan_inside. cbv zeta.
  pose proof (decimal_length 20 n) as Hlen. fold (sprintf_lu n) in Hlen.
  destruct (skip_str_digits m n) as [->|[r ->]].
  - replace (List.length (sprintf_lu n) <? 64)%nat with true
      by (symmetry; apply Nat.ltb_lt; lia).
    reflexivity.
  - apply orb_true_iff. right.
    pose proof (decimal_isdigit 20 n) as Hd. fold (sprintf_lu n) in Hd.
    assert (Hne : sprintf_lu n <> []).
    { unfold sprintf_lu. rewrite decimal_S.
      intros E. apply app_eq_nil in E. destruct E as [_ E]. discriminate E. }
    set (digits := sprintf_lu n) in *. clearbody digits.
    destruct digits as [|c l]; [congruence|].
    apply Forall_inv in Hd.
    assert (Hc : 48 <= c <= 57).
    { unfold isdigit in Hd. apply andb_true_iff in Hd.
      destruct Hd as [H1 H2]. apply Z.leb_le in H1, H2. lia. }
    assert (Hsp : isspace c = false).
    { unfold isspace. apply orb_false_iff. split; [apply Z.eqb_neq; lia|].
      apply andb_false_iff. right. apply Z.leb_gt. lia. }
    assert (H45 : (c =? 45) = false) by (apply Z.eqb_neq; lia).
    assert (H43 : (c =? 43) = false) by (apply Z.eqb_neq; lia).
    unfold strtoul_stops. cbn [app skip_space]. rewrite Hsp.
    cbn [strtoul_sign]. rewrite H45, H43. cbn [fst snd].
    apply existsb_exists.
    eexists. split; [apply in_cons, in_elt|]. rewrite Hg. reflexivity.
Qed.

Lemma timer_skip_set_writes m :
  lock_writable m = true ->
  timer_skip_set m
  = Done tt (set_lock_file
               (Some (sprintf_lu (Input.skip (input (data m))))) m).
Proof.
  intros Hw. unfold timer_skip_set. run_M. rewrite Hw. reflexivity.
Qed.

(** C7, as the code has it: the offset the timer writes to the lock file as
    decimal ASCII is, after a restart, again the offset of the module when it
    is smaller than the file size, and 0 otherwise; the warning is logged
    when the stored offset is not 0 and not smaller than the file size.
    This is so when the byte that follows the digits in the read buffer is
    no digit (the buffer is not terminated). *)
Theorem lock_round_trip
    (m : machine) (o : options) (path : string) (f : file_t)
    (garbage : mem) (clk : nat -> Z) (w : bool) :
  let skip := Input.skip (input (data m)) in
  lock_writable m = true ->
  opt_lock o = Some path ->
  0 <= skip <= ULONG_MAX ->
  isdigit (garbage (Z.of_nat (List.length (sprintf_lu skip)))) = false ->
  returns (timer_skip_set m)
    (fun _ m1 =>
       lock_file m1 = Some (sprintf_lu skip) /\
       returns (restart o (boot (Some f) (lock_file m1) w garbage clk))
         (fun is_open m2 =>
            is_open = true /\
            Input.skip (input (data m2))
            = (if skip <? st_size f then skip else 0) /\
            (In (warn "skip value is greater than the file size") (log m2)
             <-> skip <> 0 /\ st_size f <= skip))).
Proof.
  intros skip Hw Ho Hskip Hg.
  rewrite (timer_skip_set_writes m Hw). cbn [returns set_lock_file lock_file].
  split; [reflexivity|]. fold skip.
  set (m0 := boot _ _ _ _ _).
  assert (Hne : sprintf_lu skip <> []).
  { unfold sprintf_lu. rewrite decimal_S.
    intros E. apply app_eq_nil in E. destruct E as [_ E]. discriminate E. }
  destruct (module_init_reads_lock o m0 path (sprintf_lu skip) Ho eq_refl Hne
              (skip_str_scan_inside m0 skip Hg))
    as (m' & Hrun & Hsk & Hdisk & _ & Hlog).
  rewrite (skip_str_round_trip m0 skip Hskip Hg) in Hsk.
  unfold restart, bind. rewrite Hrun.
  rewrite (open_file_open_opened m' f Hdisk). cbn [returns].
  split; [reflexivity|].
  change (log m0) with (@nil log_entry) in Hlog.
  rewrite opened_skip. unfold window_offset, opened. rewrite Hsk.
  destruct (skip =? 0) eqn:E0.
  - apply Z.eqb_eq in E0. rewrite E0. cbn. rewrite Hlog.
    split; [destruct (0 <? st_size f); reflexivity|].
    split; [intros []|intros [H _]; congruence].
  - apply Z.eqb_neq in E0.
    destruct (st_size f <=? skip) eqn:E1.
    + apply Z.leb_le in E1.
      destruct (skip <? st_size f) eqn:E2; [apply Z.ltb_lt in E2; lia|].
      split; [reflexivity|]. cbn. rewrite Hlog. cbn. split; auto.
    + apply Z.leb_gt in E1.
      destruct (skip <? st_size f) eqn:E2; [|apply Z.ltb_ge in E2; lia].
      split; [reflexivity|]. cbn. rewrite Hlog. split; [intros []|lia].
Qed.

Lemma lock_round_trip_witness :
  let o := options_of (Some "input.lock"%string) None in
  let m := set_data (set_input_skip 376 zeroed)
                    (boot (Some three_cells) None true zeros (fun _ => 0)) in
  let skip := Input.skip (input (data m)) in
  returns (timer_skip_set m)
    (fun _ m1 =>
       lock_file m1 = Some (sprintf_lu skip) /\
       returns (restart o (boot (Some three_cells) (lock_file m1) true zeros
                                (fun _ => 0)))
         (fun is_open m2 =>
            is_open = true /\
            Input.skip (input (data m2))
            = (if skip <? st_size three_cells then skip else 0) /\
            (In (warn "skip value is greater than the file size") (log m2)
             <-> skip <> 0 /\ st_size three_cells <= skip))).
Proof.
  intros o m skip.
  apply (lock_round_trip m o "input.lock" three_cells zeros (fun _ => 0) true).
  - reflexivity.
  - reflexivity.
  - vm_compute. split; discriminate.
  - vm_compute. reflexivity.
Defined.

(** C7 as stated fails on an empty file: the stored offset 0 is not smaller
    than the file size 0, the offset after the restart is 0, and no warning
    is logged. *)
Lemma lock_round_trip_empty_file_no_warning :
  let o := options_of (Some "input.lock"%string) None in
  let m := started o (Some empty_file) None in
  let skip := Input.skip (input (data m)) in
  st_size empty_file <= skip /\
  returns (timer_skip_set m)
    (fun _ m1 =>
       lock_file m1 = Some [48] /\
       returns (restart o (boot (Some empty_file) (lock_file m1) true zeros
                                (fun _ => 0)))
         (fun _ m2 =>
            Input.skip (input (data m2)) = 0 /\ log m2 = [])).
Proof. vm_compute. repeat split; discriminate. Qed.

(** ** The ring *)

Lemma u32_small z : 0 <= z < 2 ^ 32 -> u32 z = z.
Proof. intros H. unfold u32. apply Z.mod_small. exact H. Qed.

Lemma signals_app ch b :
  signals (ch ++ [b]) = signals ch + (if b =? 0xFF then 0 else 1).
Proof.
  unfold signals. rewrite filter_app, length_app. cbn [filter].
  destruct (b =? 255); cbn; lia.
Qed.

Lemma signals_cons b ch :
  signals (b :: ch) = signals ch + (if b =? 0xFF then 0 else 1).
Proof.
  unfold signals. cbn [filter]. destruct (b =? 255); cbn [negb List.length]; lia.
Qed.

Lemma signals_nonneg ch : 0 <= signals ch.
Proof. unfold signals. lia. Qed.

(** A push on a full ring. *)
Lemma push_dropped m ts :
  Sync.buffer_size (sync (data m)) <= Sync.buffer_count (sync (data m)) ->
  sync_queue_push (Some ts) m
  = Done tt (set_data
               (set_sync_buffer_overflow
                  (u32 (Sync.buffer_overflow (sync (data m)) + 1)) (data m))
               m).
Proof.
  intros H. apply Z.leb_le in H. unfold sync_queue_push. run_M.
  rewrite H. reflexivity.
Qed.

(** A push on a ring with room. *)
Lemma push_stored m ts :
  Sync.buffer_count (sync (data m)) < Sync.buffer_size (sync (data m)) ->
  exists m',
    sync_queue_push (Some ts) m = Done tt m' /\
    sync (data m')
    = (let s := sync (data m) in
       Sync.mk (memcpy (Sync.buffer s) (Sync.buffer_write s) ts TS_PACKET_SIZE)
               (Sync.buffer_size s)
               (u32 (Sync.buffer_count s + TS_PACKET_SIZE))
               (Sync.buffer_read s)
               (if Sync.buffer_size s
                   <=? u32 (Sync.buffer_write s + TS_PACKET_SIZE)
                then 0 else u32 (Sync.buffer_write s + TS_PACKET_SIZE))
               0) /\
    channel m' = channel m ++ [0] /\
    log m' = log m ++ overflow_line (Sync.buffer_overflow (sync (data m))).
Proof.
  intros H. apply Z.leb_gt in H. unfold sync_queue_push, overflow_line. run_M.
  rewrite H.
  destruct (Sync.buffer_overflow (sync (data m)) =? 0) eqn:E; cbn;
    [apply Z.eqb_eq in E|];
    case_if; (eexists; split; [reflexivity|]); cbn;
    rewrite ?E, ?app_nil_r; auto.
Qed.

(** A push of a payload never sends the sentinel. *)
Lemma push_payload_signal m ts :
  exists m',
    sync_queue_push (Some ts) m = Done tt m' /\
    (channel m' = channel m \/ channel m' = channel m ++ [0x00]).
Proof.
  destruct (Z_le_gt_dec (Sync.buffer_size (sync (data m)))
                        (Sync.buffer_count (sync (data m)))) as [Hfull|Hroom].
  - eexists. split; [apply (push_dropped m ts Hfull)|]. left. reflexivity.
  - destruct (push_stored m ts ltac:(lia)) as (m' & Hrun & _ & Hch & _).
    exists m'. auto.
Qed.

Lemma push_exit_sent m :
  sync_queue_push None m = Done tt (set_channel (channel m ++ [0xFF]) m).
Proof. reflexivity. Qed.

(** A pop, by the byte that is received. *)
Lemma pop_received m b rest :
  channel m = b :: rest ->
  exists m',
    on_thread_read m = Done (if b =? 0xFF then uninit m
                             else memcpy (uninit m) 0
                                    (index (Sync.buffer (sync (data m)))
                                           (Sync.buffer_read (sync (data m))))
                                    TS_PACKET_SIZE) m' /\
    channel m' = rest /\
    log m' = log m /\
    sync (data m')
    = (let s := sync (data m) in
       if b =? 0xFF then s
       else
         Sync.mk (Sync.buffer s) (Sync.buffer_size s)
                 (u32 (Sync.buffer_count s - TS_PACKET_SIZE))
                 (if Sync.buffer_size s
                     <=? u32 (Sync.buffer_read s + TS_PACKET_SIZE)
                  then 0 else u32 (Sync.buffer_read s + TS_PACKET_SIZE))
                 (Sync.buffer_write s) (Sync.buffer_overflow s)).
Proof.
  intros Hch. unfold on_thread_read, sync_queue_pop. run_M. rewrite Hch. cbn.
  destruct (b =? 255); cbn.
  - case_if; (eexists; split; [reflexivity|]); cbn; auto;
      repeat split; auto; destruct (sync (data m)); reflexivity.
  - case_if; (eexists; split; [reflexivity|]); cbn; auto.
Qed.

Lemma ring_ready_inv m : ring_ready m -> ring_inv m.
Proof.
  unfold ring_ready, ring_inv. intros (Hs & Hc & Hr & Hw & Ho & Hch).
  rewrite Hs, Hc, Hr, Hw, Ho, Hch. unfold SYNC_BUFFER_SIZE, TS_PACKET_SIZE.
  cbn. repeat split; lia.
Qed.

Ltac ring_arith :=
  unfold SYNC_BUFFER_SIZE, TS_PACKET_SIZE in *;
  Z.to_euclidean_division_equations; lia.

Ltac ring_simpl :=
  cbn [data sync channel log set_data set_sync set_channel set_log
       set_sync_buffer_overflow Sync.buffer Sync.buffer_size
       Sync.buffer_count Sync.buffer_read Sync.buffer_write
       Sync.buffer_overflow].

Lemma queue_step_inv op m m' :
  ring_inv m -> queue_step op m = Done tt m' -> ring_inv m'.
Proof.
  unfold ring_inv. cbv zeta.
  intros (Hs & Hr & Hra & Hc & Hsig & Hw & Ho) Hstep.
  pose proof (signals_nonneg (channel m)) as Hnn.
  destruct op as [ts| |]; cbn [queue_step] in Hstep.
  - destruct (Z_le_gt_dec (Sync.buffer_size (sync (data m)))
                          (Sync.buffer_count (sync (data m)))) as [Hfull|Hroom].
    + rewrite (push_dropped m ts Hfull) in Hstep.
      injection Hstep as <-. ring_simpl.
      repeat split; auto; try lia;
        unfold u32; apply Z.mod_pos_bound; lia.
    + destruct (push_stored m ts ltac:(lia)) as (m1 & Hrun & Hsy & Hch & _).
      rewrite Hrun in Hstep. injection Hstep as <-.
      rewrite Hsy, Hch, signals_app. cbv zeta. ring_simpl.
      change (0 =? 255) with false. cbv iota.
      assert (Hcnt : Sync.buffer_count (sync (data m)) + 188 <= 188 * 2048)
        by ring_arith.
      assert (Hwr : 0 <= Sync.buffer_write (sync (data m))
                    /\ Sync.buffer_write (sync (data m)) + 188 <= 188 * 2048)
        by ring_arith.
      unfold TS_PACKET_SIZE.
      rewrite !u32_small by (unfold SYNC_BUFFER_SIZE, TS_PACKET_SIZE in *; lia).
      rewrite Hs.
      destruct (SYNC_BUFFER_SIZE <=? Sync.buffer_write (sync (data m)) + 188)
        eqn:E; [apply Z.leb_le in E | apply Z.leb_gt in E];
        repeat split; auto; try ring_arith.
  - rewrite push_exit_sent in Hstep. injection Hstep as <-. ring_simpl.
    rewrite signals_app. change (255 =? 255) with true. cbv iota.
    rewrite Z.add_0_r. repeat split; auto; lia.
  - unfold bind in Hstep.
    destruct (channel m) as [|b rest] eqn:Hch.
    { unfold on_thread_read, sync_queue_pop in Hstep. revert Hstep. run_M.
      rewrite Hch. discriminate. }
    destruct (pop_received m b rest Hch) as (m1 & Hrun & Hch1 & _ & Hsy).
    rewrite Hrun in Hstep. unfold ret in Hstep. injection Hstep as <-.
    rewrite Hsy, Hch1. rewrite signals_cons in Hsig. cbv zeta.
    pose proof (signals_nonneg rest) as Hnn'.
    destruct (b =? 255); ring_simpl.
    + rewrite Z.add_0_r in Hsig. repeat split; auto; lia.
    + unfold TS_PACKET_SIZE.
      assert (Hrd : Sync.buffer_read (sync (data m)) + 188 <= 188 * 2048)
        by ring_arith.
      rewrite !u32_small by (unfold SYNC_BUFFER_SIZE, TS_PACKET_SIZE in *; lia).
      rewrite Hs.
      destruct (SYNC_BUFFER_SIZE <=? Sync.buffer_read (sync (data m)) + 188)
        eqn:E; [apply Z.leb_le in E | apply Z.leb_gt in E];
        repeat split; auto; try ring_arith.
Qed.

Lemma queue_run_inv ops : forall m m',
  ring_inv m -> queue_run ops m = Done tt m' -> ring_inv m'.
Proof.
  induction ops as [|op ops IH]; intros m m' Hinv Hrun.
  - injection Hrun as <-. exact Hinv.
  - cbn [queue_run] in Hrun. unfold bind in Hrun.
    destruct (queue_step op m) as [[] m1|] eqn:Hstep; [|discriminate].
    apply (IH m1 m'); [|exact Hrun].
    apply (queue_step_inv op m m1 Hinv Hstep).
Qed.

(** C2: in every state that pushes and pops lead to from the initialised
    ring, a push of a payload either (a) finds [fill >= capacity],
    increments [overflow_count] (a [uint32_t]) and changes nothing else: no
    payload is stored, no signal byte written; or (b) copies the 188 bytes
    at [write_idx], advances [write_idx] modulo the capacity, adds 188 to
    [fill], writes the one byte 0x00 to the signal channel, and resets
    [overflow_count], logging "sync buffer overflow. dropped N packets" with
    the count if it was not 0.  In every such state the ring holds as many
    payloads as there are non-sentinel bytes in flight on the signal
    channel. *)
Theorem sync_queue_push_spec
    (m0 m : machine) (ops : list queue_op) (ts : mem) :
  ring_ready m0 ->
  queue_run ops m0 = Done tt m ->
  let s := sync (data m) in
  Sync.buffer_count s = 188 * signals (channel m) /\
  exists m',
    sync_queue_push (Some ts) m = Done tt m' /\
    let s' := sync (data m') in
    if Sync.buffer_size s <=? Sync.buffer_count s then
      m' = set_data (set_sync_buffer_overflow
                       (u32 (Sync.buffer_overflow s + 1)) (data m)) m /\
      Sync.buffer s' = Sync.buffer s /\
      Sync.buffer_write s' = Sync.buffer_write s /\
      Sync.buffer_count s' = Sync.buffer_count s /\
      channel m' = channel m /\
      log m' = log m
    else
      (forall i, 0 <= i < 188 ->
         Sync.buffer s' (Sync.buffer_write s + i) = ts i) /\
      (forall j, j < Sync.buffer_write s \/ Sync.buffer_write s + 188 <= j ->
         Sync.buffer s' j = Sync.buffer s j) /\
      Sync.buffer_write s'
      = (Sync.buffer_write s + 188) mod Sync.buffer_size s /\
      Sync.buffer_count s' = Sync.buffer_count s + 188 /\
      Sync.buffer_read s' = Sync.buffer_read s /\
      Sync.buffer_overflow s' = 0 /\
      channel m' = channel m ++ [0x00] /\
      log m' = log m ++ overflow_line (Sync.buffer_overflow s).
Proof.
  intros Hready Hrun s.
  pose proof (queue_run_inv ops m0 m (ring_ready_inv m0 Hready) Hrun) as Hinv.
  destruct Hinv as (Hs & Hr & Hra & Hc & Hsig & Hw & Ho).
  fold s in Hs, Hr, Hra, Hc, Hsig, Hw, Ho.
  split; [exact Hsig|].
  pose proof (signals_nonneg (channel m)) as Hnn.
  destruct (Sync.buffer_size s <=? Sync.buffer_count s) eqn:E.
  - apply Z.leb_le in E. eexists. split; [apply (push_dropped m ts E)|].
    cbn. auto 10.
  - apply Z.leb_gt in E.
    destruct (push_stored m ts E) as (m' & Hpush & Hsy & Hch & Hlog).
    exists m'. split; [exact Hpush|]. cbn zeta. rewrite Hsy. fold s. cbn.
    assert (Hcnt : Sync.buffer_count s + 188 <= 188 * 2048) by ring_arith.
    assert (Hwr : 0 <= Sync.buffer_write s
                  /\ Sync.buffer_write s + 188 <= 188 * 2048) by ring_arith.
    unfold TS_PACKET_SIZE.
    rewrite !u32_small by (unfold SYNC_BUFFER_SIZE, TS_PACKET_SIZE in *; lia).
    repeat split; auto.
    + intros i Hi. unfold memcpy.
      replace ((Sync.buffer_write s <=? Sync.buffer_write s + i)
               && (Sync.buffer_write s + i <? Sync.buffer_write s + 188))
        with true
        by (symmetry; apply andb_true_iff; split;
            [apply Z.leb_le | apply Z.ltb_lt]; lia).
      f_equal. lia.
    + intros j Hj. unfold memcpy.
      replace ((Sync.buffer_write s <=? j) && (j <? Sync.buffer_write s + 188))
        with false; [reflexivity|].
      symmetry. apply andb_false_iff.
      destruct Hj; [left; apply Z.leb_gt | right; apply Z.ltb_ge]; lia.
    + rewrite Hs.
      destruct (SYNC_BUFFER_SIZE <=? Sync.buffer_write s + 188) eqn:E';
        [apply Z.leb_le in E' | apply Z.leb_gt in E']; ring_arith.
Qed.

Lemma sync_queue_push_spec_witness :
  let m0 := started (options_of None None) None None in
  let ops := [op_push (packet true); op_push (packet false); op_pop] in
  let m := after (queue_run ops) m0 in
  Sync.buffer_count (sync (data m)) = 188 * signals (channel m) /\
  channel m = [0] /\
  exists m',
    sync_queue_push (Some (packet true)) m = Done tt m' /\
    channel m' = [0; 0] /\
    Sync.buffer_write (sync (data m')) = 3 * 188.
Proof.
  intros m0 ops m.
  destruct (sync_queue_push_spec m0 m ops (packet true)) as (H1 & m' & H2 & H3).
  - vm_compute. repeat split; reflexivity.
  - vm_compute. reflexivity.
  - split; [exact H1|]. split; [vm_compute; reflexivity|].
    exists m'. split; [exact H2|].
    cbv zeta in H3.
    replace (Sync.buffer_size (sync (data m))
             <=? Sync.buffer_count (sync (data m))) with false in H3
      by reflexivity.
    destruct H3 as (_ & _ & Hw & _ & _ & _ & Hch & _).
    split; [rewrite Hch; reflexivity | rewrite Hw; reflexivity].
Defined.

(** A burst of [n] pushes on a full ring is counted exactly, and nothing is
    stored or sent; the count is what the next push that is stored logs. *)
Lemma drops_are_counted (n : nat) : forall m ts,
  Sync.buffer_size (sync (data m)) <= Sync.buffer_count (sync (data m)) ->
  0 <= Sync.buffer_overflow (sync (data m)) ->
  Sync.buffer_overflow (sync (data m)) + Z.of_nat n < 2 ^ 32 ->
  exists m',
    queue_run (repeat (op_push ts) n) m = Done tt m' /\
    Sync.buffer_overflow (sync (data m'))
    = Sync.buffer_overflow (sync (data m)) + Z.of_nat n /\
    Sync.buffer_size (sync (data m')) = Sync.buffer_size (sync (data m)) /\
    Sync.buffer_count (sync (data m')) = Sync.buffer_count (sync (data m)) /\
    channel m' = channel m /\ log m' = log m.
Proof.
  induction n as [|n IH]; intros m ts Hfull Ho Hlt.
  - exists m. cbn. repeat split; auto; lia.
  - cbn [repeat queue_run queue_step]. unfold bind.
    rewrite (push_dropped m ts Hfull).
    set (m1 := set_data _ m).
    destruct (IH m1 ts) as (m' & Hrun & Hov & Hsz & Hcnt & Hch & Hlog).
    + exact Hfull.
    + cbn. unfold u32. apply Z.mod_pos_bound. lia.
    + cbn. rewrite u32_small by lia. lia.
    + exists m'. split; [exact Hrun|]. rewrite Hov, Hsz, Hcnt, Hch, Hlog.
      cbn. rewrite u32_small by lia. repeat split; lia.
Qed.

(** ** The search of a PCR, from any cursor *)

Lemma seek_pcr_188_scan (w : mem) (buffer buffer_end : Z) :
  match seek_pcr_188 w buffer buffer_end with
  | Some q =>
      exists k, 1 <= k /\ q = buffer + k * 188 /\ q < buffer_end /\
        check_pcr (index w q) = true /\
        forall j, 1 <= j < k -> check_pcr (index w (buffer + j * 188)) = false
  | None =>
      forall j, 1 <= j -> buffer + j * 188 < buffer_end ->
        check_pcr (index w (buffer + j * 188)) = false
  end.
Proof.
  unfold seek_pcr_188, TS_PACKET_SIZE.
  pose proof (seek_loop_spec 188 0 w buffer_end ltac:(lia)
                (seek_fuel 188 (buffer + 188) buffer_end) (buffer + 188)
                ltac:(unfold seek_fuel; lia)) as H.
  destruct (seek_loop 188 0 _ w (buffer + 188) buffer_end) as [q|].
  - destruct H as (k & Hk & Hq & Hlt & Hc & Hb).
    exists (k + 1). rewrite Z.add_0_r in Hc.
    repeat split; try lia; auto.
    intros j Hj. specialize (Hb (j - 1) ltac:(lia)).
    replace (buffer + 188 + (j - 1) * 188 + 0) with (buffer + j * 188)
      in Hb by lia.
    exact Hb.
  - intros j Hj Hlt. specialize (H (j - 1) ltac:(lia) ltac:(lia)).
    replace (buffer + 188 + (j - 1) * 188 + 0) with (buffer + j * 188)
      in H by lia.
    exact H.
Qed.

Lemma seek_pcr_192_scan (w : mem) (buffer buffer_end : Z) :
  match seek_pcr_192 w buffer buffer_end with
  | Some q =>
      exists k, 1 <= k /\ q = buffer + k * 192 /\ q < buffer_end /\
        check_pcr (index w (q + 4)) = true /\
        forall j, 1 <= j < k ->
          check_pcr (index w (buffer + j * 192 + 4)) = false
  | None =>
      forall j, 1 <= j -> buffer + j * 192 < buffer_end ->
        check_pcr (index w (buffer + j * 192 + 4)) = false
  end.
Proof.
  unfold seek_pcr_192, M2TS_PACKET_SIZE.
  pose proof (seek_loop_spec 192 4 w buffer_end ltac:(lia)
                (seek_fuel 192 (buffer + 192) buffer_end) (buffer + 192)
                ltac:(unfold seek_fuel; lia)) as H.
  destruct (seek_loop 192 4 _ w (buffer + 192) buffer_end) as [q|].
  - destruct H as (k & Hk & Hq & Hlt & Hc & Hb).
    exists (k + 1). repeat split; try lia; auto.
    intros j Hj. specialize (Hb (j - 1) ltac:(lia)).
    replace (buffer + 192 + (j - 1) * 192 + 4) with (buffer + j * 192 + 4)
      in Hb by lia.
    exact Hb.
  - intros j Hj Hlt. specialize (H (j - 1) ltac:(lia) ltac:(lia)).
    replace (buffer + 192 + (j - 1) * 192 + 4) with (buffer + j * 192 + 4)
      in H by lia.
    exact H.
Qed.

(** X1: [seek_pcr_188] returns [q] exactly when [q] is the first packet after
    the one at [buffer] that lies before [buffer_end] and whose header
    announces a PCR; the packet at [buffer] itself is not looked at. *)
Theorem seek_pcr_188_spec (w : mem) (buffer buffer_end q : Z) :
  seek_pcr_188 w buffer buffer_end = Some q <->
  exists k, 1 <= k /\ q = buffer + k * 188 /\ q < buffer_end /\
    check_pcr (index w q) = true /\
    forall j, 1 <= j < k -> check_pcr (index w (buffer + j * 188)) = false.
Proof.
  pose proof (seek_pcr_188_scan w buffer buffer_end) as H.
  split.
  - intros E. rewrite E in H. exact H.
  - intros (k & Hk & Hq & Hlt & Hc & Hb).
    destruct (seek_pcr_188 w buffer buffer_end) as [q'|].
    + destruct H as (k' & Hk' & Hq' & Hlt' & Hc' & Hb').
      destruct (Z.lt_trichotomy k k') as [L|[L|L]].
      * rewrite Hq, (Hb' k) in Hc by lia. discriminate.
      * subst. reflexivity.
      * rewrite Hq', (Hb k') in Hc' by lia. discriminate.
    + rewrite Hq, (H k) in Hc by lia. discriminate.
Qed.

(** X2: [seek_pcr_192] does the same in strides of 192 bytes, looking at the TS
    header 4 bytes into each cell. *)
Theorem seek_pcr_192_spec (w : mem) (buffer buffer_end q : Z) :
  seek_pcr_192 w buffer buffer_end = Some q <->
  exists k, 1 <= k /\ q = buffer + k * 192 /\ q < buffer_end /\
    check_pcr (index w (q + 4)) = true /\
    forall j, 1 <= j < k ->
      check_pcr (index w (buffer + j * 192 + 4)) = false.
Proof.
  pose proof (seek_pcr_192_scan w buffer buffer_end) as H.
  split.
  - intros E. rewrite E in H. exact H.
  - intros (k & Hk & Hq & Hlt & Hc & Hb).
    destruct (seek_pcr_192 w buffer buffer_end) as [q'|].
    + destruct H as (k' & Hk' & Hq' & Hlt' & Hc' & Hb').
      destruct (Z.lt_trichotomy k k') as [L|[L|L]].
      * rewrite Hq, (Hb' k) in Hc by lia. discriminate.
      * subst. reflexivity.
      * rewrite Hq', (Hb k') in Hc' by lia. discriminate.
    + rewrite Hq, (H k) in Hc by lia. discriminate.
Qed.

(** ** How [open_file] fails *)

(** X3: A file that cannot be opened: [open_file] returns 0 with [fd] set to 0;
    nothing is logged and nothing else changes. *)
Theorem open_file_missing (m : machine) :
  disk m = None ->
  open_file m = Done 0 (set_data (set_fd 0 (data m)) m).
Proof.
  intros Hd. unfold open_file, open_file_open. run_M.
  case_if; rewrite Hd; reflexivity.
Qed.

Lemma open_file_missing_witness :
  let m := started (options_of None None) None None in
  open_file m = Done 0 (set_data (set_fd 0 (data m)) m).
Proof. intro m. apply (open_file_missing m). reflexivity. Defined.

(** X4: A window read in full that is neither TS nor M2TS: [open_file] logs the
    error "wrong file format", closes the file and returns 0; the packet
    size and the cursor are left as they were. *)
Theorem open_file_wrong_format (m : machine) (f : file_t) :
  disk m = Some f ->
  fst (probe_read m f) = Input.size (input (data m)) ->
  classify (snd (probe_read m f)) = None ->
  exists m',
    open_file m = Done 0 m' /\
    log m' = log (opened m f) ++ [err "wrong file format"] /\
    fd (data m') = 0 /\
    ts_size (data m') = ts_size (data m) /\
    Input.ptr (input (data m')) = Input.ptr (input (data m)).
Proof.
  intros Hf Hfull Hcl.
  rewrite (open_file_opened m f Hf).
  unfold open_file_probe. run_M. opened_rw. rewrite Hf.
  fold (probe_read m f). rewrite Hfull, Z.eqb_refl. cbn.
  unfold classify in Hcl.
  destruct ((snd (probe_read m f) 0 =? 71)
            && (snd (probe_read m f) TS_PACKET_SIZE =? 71)) eqn:Hts;
    [discriminate|].
  destruct ((snd (probe_read m f) 4 =? 71)
            && (snd (probe_read m f) (4 + M2TS_PACKET_SIZE) =? 71)) eqn:Hm2;
    [discriminate|].
  cbn in *. rewrite Hm2. cbn.
  eexists. split; [reflexivity|]. cbn. opened_rw. auto.
Qed.

Lemma open_file_wrong_format_witness :
  let f := blank_file (4 * 1024 * 1024) in
  let m := started (options_of None None) (Some f) None in
  exists m',
    open_file m = Done 0 m' /\
    log m' = log (opened m f) ++ [err "wrong file format"] /\
    fd (data m') = 0 /\
    ts_size (data m') = ts_size (data m) /\
    Input.ptr (input (data m')) = Input.ptr (input (data m)).
Proof.
  intros f m. apply (open_file_wrong_format m f).
  - reflexivity.
  - vm_compute. reflexivity.
  - vm_compute. reflexivity.
Defined.

Lemma seek_pcr_188_none_intro w buffer_end :
  (forall k, 1 <= k -> k * 188 < buffer_end ->
     check_pcr (index w (k * 188)) = false) ->
  seek_pcr_188 w 0 buffer_end = None.
Proof.
  intros Hnone.
  pose proof (seek_pcr_188_scan w 0 buffer_end) as H.
  destruct (seek_pcr_188 w 0 buffer_end) as [q|]; [|reflexivity].
  destruct H as (k & Hk & Hq & Hlt & Hc & _). subst q.
  change (0 + k * 188) with (k * 188) in Hc, Hlt.
  rewrite (Hnone k Hk Hlt) in Hc. discriminate.
Qed.

Lemma open_file_ts_seek_none (m : machine) (f : file_t) :
  disk m = Some f ->
  fst (probe_read m f) = Input.size (input (data m)) ->
  classify (snd (probe_read m f)) = Some (TS_PACKET_SIZE, 0) ->
  seek_pcr_188 (snd (probe_read m f)) 0 (Input.size (input (data m)))
  = None ->
  exists m',
    open_file m = Done 0 m' /\
    log m' = log (opened m f) ++ [err "first PCR is not found"] /\
    fd (data m') = 0 /\
    ts_size (data m') = TS_PACKET_SIZE /\
    Input.ptr (input (data m')) = None.
Proof.
  intros Hf Hfull Hcl Hseek.
  rewrite (open_file_opened m f Hf).
  unfold open_file_probe. run_M. opened_rw. rewrite Hf.
  fold (probe_read m f). rewrite Hfull, Z.eqb_refl. cbn.
  unfold classify in Hcl.
  destruct ((snd (probe_read m f) 0 =? 71)
            && (snd (probe_read m f) TS_PACKET_SIZE =? 71)) eqn:Hts.
  - cbn. unfold Input.end_. cbn. opened_rw. rewrite Hseek. cbn.
    eexists. split; [reflexivity|]. cbn. auto.
  - destruct ((snd (probe_read m f) 4 =? 71)
              && (snd (probe_read m f) (4 + M2TS_PACKET_SIZE) =? 71));
      discriminate.
Qed.

(** X5: A TS window read in full without a PCR after its first packet:
    [open_file] logs the error "first PCR is not found", closes the file and
    returns 0, with the cursor null. *)
Theorem open_file_ts_pcr_not_found (m : machine) (f : file_t) :
  disk m = Some f ->
  fst (probe_read m f) = Input.size (input (data m)) ->
  classify (snd (probe_read m f)) = Some (TS_PACKET_SIZE, 0) ->
  (forall k, 1 <= k -> k * 188 < Input.size (input (data m)) ->
     check_pcr (index (snd (probe_read m f)) (k * 188)) = false) ->
  exists m',
    open_file m = Done 0 m' /\
    log m' = log (opened m f) ++ [err "first PCR is not found"] /\
    fd (data m') = 0 /\
    ts_size (data m') = TS_PACKET_SIZE /\
    Input.ptr (input (data m')) = None.
Proof.
  intros Hf Hfull Hcl Hnone.
  apply (open_file_ts_seek_none m f Hf Hfull Hcl).
  apply seek_pcr_188_none_intro. exact Hnone.
Qed.

Lemma seek_pcr_188_none_inv w buffer_end :
  seek_pcr_188 w 0 buffer_end = None ->
  forall k, 1 <= k -> k * 188 < buffer_end ->
    check_pcr (index w (k * 188)) = false.
Proof.
  intros Hn k Hk Hlt.
  pose proof (seek_pcr_188_scan w 0 buffer_end) as H. rewrite Hn in H.
  apply (H k Hk). lia.
Qed.

Lemma open_file_ts_pcr_not_found_witness :
  let f := ts_file 6000 (fun _ => false) in
  let m := started (options_of None (Some 1)) (Some f) None in
  exists m',
    open_file m = Done 0 m' /\
    log m' = log (opened m f) ++ [err "first PCR is not found"] /\
    fd (data m') = 0 /\
    ts_size (data m') = TS_PACKET_SIZE /\
    Input.ptr (input (data m')) = None.
Proof.
  intros f m. apply (open_file_ts_pcr_not_found m f).
  - reflexivity.
  - vm_compute. reflexivity.
  - vm_compute. reflexivity.
  - apply seek_pcr_188_none_inv. vm_compute. reflexivity.
Defined.

(** X6: After the opening of the file the offset to read at is 0 or lies inside
    the file, whatever it was before. *)
Theorem open_file_open_skip_in_file (m : machine) (f : file_t) :
  disk m = Some f ->
  0 <= Input.skip (input (data m)) ->
  exists m',
    open_file_open m = Done true m' /\
    file_size (data m') = st_size f /\
    (Input.skip (input (data m')) = 0
     \/ 0 < Input.skip (input (data m')) < st_size f).
Proof.
  intros Hf Hs. exists (opened m f).
  split; [apply (open_file_open_opened m f Hf)|].
  rewrite opened_file_size, opened_skip. split; [reflexivity|].
  unfold window_offset.
  destruct (Input.skip (input (data m)) =? 0) eqn:E0; [left; reflexivity|].
  apply Z.eqb_neq in E0.
  destruct (st_size f <=? Input.skip (input (data m))) eqn:E1;
    [left; reflexivity|].
  apply Z.leb_gt in E1. right. lia.
Qed.

Lemma open_file_open_skip_in_file_witness :
  let m := set_data (set_input_skip 1000 zeroed)
                    (boot (Some three_cells) None true zeros (fun _ => 0)) in
  exists m',
    open_file_open m = Done true m' /\
    file_size (data m') = st_size three_cells /\
    (Input.skip (input (data m')) = 0
     \/ 0 < Input.skip (input (data m')) < st_size three_cells).
Proof.
  intro m. apply (open_file_open_skip_in_file m three_cells).
  - reflexivity.
  - vm_compute. discriminate.
Defined.

(** ** What the probe records of an M2TS file *)

Lemma opened_length m f : length (data (opened m f)) = length (data m).
Proof. opened_proj. Qed.

Lemma m2ts_time_ext (a b : mem) :
  (forall i, 0 <= i < 4 -> a i = b i) -> m2ts_time a = m2ts_time b.
Proof.
  intros H. unfold m2ts_time.
  rewrite (H 0), (H 1), (H 2), (H 3) by lia. reflexivity.
Qed.

(** X7: For an M2TS window with a PCR, [open_file] sets [start_time] to the
    stamp of the first PCR cell after the first cell, in thousands; it reads
    the last 192 bytes of the file, and when their byte 4 is the sync byte
    sets [length] to the stamp of that cell, in thousands, minus
    [start_time] (as [uint32_t]); otherwise it warns and leaves [length].
    [pcr] is the PCR of the cell at the cursor. *)
Theorem open_file_m2ts_times (m : machine) (f : file_t) (k : Z) :
  disk m = Some f ->
  fst (probe_read m f) = Input.size (input (data m)) ->
  classify (snd (probe_read m f)) = Some (M2TS_PACKET_SIZE, 4) ->
  1 <= k -> k * 192 < Input.size (input (data m)) ->
  check_pcr (index (snd (probe_read m f)) (k * 192 + 4)) = true ->
  (forall j, 1 <= j < k ->
     check_pcr (index (snd (probe_read m f)) (j * 192 + 4)) = false) ->
  192 <= st_size f ->
  let w := snd (probe_read m f) in
  let start := m2ts_time (index w (k * 192)) / 1000 in
  let last := index (contents f) (st_size f - 192) in
  exists m',
    open_file m = Done 1 m' /\
    start_time (data m') = start /\
    pcr (data m') = calc_pcr (index (index w (k * 192)) 4) /\
    if last 4 =? 0x47 then
      length (data m') = u32 (m2ts_time last / 1000 - start) /\
      log m' = log (opened m f)
    else
      length (data m') = length (data m) /\
      log m' = log (opened m f) ++ [warn "failed to get M2TS file length"].
Proof.
  intros Hf Hfull Hcl Hk Hlt Hc Hbefore Hsz w start last.
  rewrite (open_file_opened m f Hf).
  unfold open_file_probe. run_M. opened_rw. rewrite Hf.
  fold (probe_read m f). rewrite Hfull, Z.eqb_refl. cbn.
  unfold classify in Hcl.
  destruct ((snd (probe_read m f) 0 =? 71)
            && (snd (probe_read m f) TS_PACKET_SIZE =? 71)) eqn:Hts;
    [discriminate|].
  destruct ((snd (probe_read m f) 4 =? 71)
            && (snd (probe_read m f) (4 + M2TS_PACKET_SIZE) =? 71)) eqn:Hm2;
    [|discriminate].
  cbn in Hm2 |- *. rewrite Hm2. cbn. unfold Input.end_. cbn. opened_rw.
  rewrite (seek_pcr_192_first _ _ k Hk Hlt Hc Hbefore). cbn. opened_rw.
  rewrite Hf.
  set (tail := snd (pread (Some f) 3 (uninit m) M2TS_PACKET_SIZE
                          (st_size f - M2TS_PACKET_SIZE))).
  assert (Htail : forall i, 0 <= i < 192 -> tail i = last i).
  { intros i Hi. unfold tail, last, pread, M2TS_PACKET_SIZE.
    replace ((3 <=? 0) || (st_size f - 192 <? 0)) with false
      by (symmetry; apply orb_false_iff; split;
          [reflexivity | apply Z.ltb_ge; lia]).
    cbn [snd]. unfold memcpy.
    replace (Z.max 0 (Z.min 192 (st_size f - (st_size f - 192)))) with 192
      by lia.
    replace ((0 <=? i) && (i <? 0 + 192)) with true
      by (symmetry; apply andb_true_iff; split;
          [apply Z.leb_le | apply Z.ltb_lt]; lia).
    unfold index. f_equal. lia. }
  rewrite (Htail 4 ltac:(lia)).
  rewrite (m2ts_time_ext tail last)
    by (intros i Hi; apply Htail; lia).
  fold w. fold start.
  destruct (last 4 =? 71) eqn:E; cbn;
    (eexists; split; [reflexivity|]); cbn; opened_rw;
    repeat split; auto using opened_length.
Qed.

Lemma open_file_m2ts_times_witness :
  let f := m2ts_file 6000 (fun k => 1000 * (k + 1)) (fun k => k =? 3) in
  let m := started (options_of None (Some 1)) (Some f) None in
  exists m',
    open_file m = Done 1 m' /\
    start_time (data m') = 4 /\
    length (data m') = 5996.
Proof.
  intros f m.
  destruct (open_file_m2ts_times m f 3) as (m' & H1 & H2 & _ & H4).
  - reflexivity.
  - vm_compute. reflexivity.
  - vm_compute. reflexivity.
  - lia.
  - vm_compute. reflexivity.
  - vm_compute. reflexivity.
  - intros j Hj. assert (j = 1 \/ j = 2) as [-> | ->] by lia;
      vm_compute; reflexivity.
  - vm_compute. discriminate.
  - exists m'. split; [exact H1|]. split.
    + rewrite H2. vm_compute. reflexivity.
    + replace (index (contents f) (st_size f - 192) 4 =? 71) with true in H4
        by (vm_compute; reflexivity).
      destruct H4 as [H4 _]. rewrite H4. vm_compute. reflexivity.
Defined.

(** ** The refill of the window *)

Lemma check_pcr_ext (a b : mem) :
  (forall i, a i = b i) -> check_pcr a = check_pcr b.
Proof. intros H. unfold check_pcr. rewrite !H. reflexivity. Qed.

Lemma seek_loop_ext stride hdr (a b : mem) buffer_end :
  (forall i, a i = b i) ->
  forall fuel p,
    seek_loop stride hdr fuel a p buffer_end
    = seek_loop stride hdr fuel b p buffer_end.
Proof.
  intros H. induction fuel as [|fuel IH]; intros p; cbn [seek_loop];
    [reflexivity|].
  rewrite (check_pcr_ext (index a (p + hdr)) (index b (p + hdr)))
    by (intros i; unfold index; apply H).
  rewrite IH. reflexivity.
Qed.

(** The refill when the file has a whole window from the cursor on. *)
Lemma refill_moves_window (m : machine) (f : file_t) (p : Z) :
  disk m = Some f -> 0 < fd (data m) ->
  Input.ptr (input (data m)) = Some p ->
  next_block_end m p = None ->
  let off := Input.skip (input (data m)) + p in
  0 <= off < 2 ^ 64 ->
  0 <= Input.size (input (data m)) ->
  off + Input.size (input (data m)) <= st_size f ->
  exists m',
    thread_loop_refill m = Done loop_continue m' /\
    Input.skip (input (data m')) = off /\
    Input.ptr (input (data m')) = Some 0 /\
    (forall i, 0 <= i < Input.size (input (data m)) ->
       Input.buffer (input (data m')) i = contents f (off + i)) /\
    (forall i, i < 0 \/ Input.size (input (data m)) <= i ->
       Input.buffer (input (data m')) i = Input.buffer (input (data m)) i) /\
    reposition (data m') = reposition (data m) /\
    ts_size (data m') = ts_size (data m) /\
    Input.size (input (data m')) = Input.size (input (data m)) /\
    channel m' = channel m /\
    disk m' = disk m /\ fd (data m') = fd (data m).
Proof.
  intros Hf Hfd Hp Hnone off Hoff Hsz Hfile.
  unfold next_block_end in Hnone.
  unfold thread_loop_refill. run_M. rewrite Hp. cbn.
  assert (Hu : u64 (Input.skip (input (data m)) + p) = off)
    by (unfold u64; apply Z.mod_small; exact Hoff).
  assert (Hrd : pread (disk m) (fd (data m)) (Input.buffer (input (data m)))
                      (Input.size (input (data m))) off
                = (Input.size (input (data m)),
                   memcpy (Input.buffer (input (data m))) 0
                          (index (contents f) off)
                          (Input.size (input (data m))))).
  { rewrite Hf. unfold pread.
    replace ((fd (data m) <=? 0) || (off <? 0)) with false
      by (symmetry; apply orb_false_iff; split;
          [apply Z.leb_gt | apply Z.ltb_ge]; lia).
    replace (Z.max 0 (Z.min (Input.size (input (data m))) (st_size f - off)))
      with (Input.size (input (data m))) by lia.
    reflexivity. }
  destruct (ts_size (data m) =? TS_PACKET_SIZE); rewrite Hnone; cbn;
    rewrite Hu, Hrd; cbn; rewrite Z.eqb_refl; cbn;
    (eexists; split; [reflexivity|]); cbn;
    (repeat split; auto;
     [ intros i Hi; unfold memcpy, index;
       replace ((0 <=? i) && (i <? 0 + Input.size (input (data m))))
         with true
         by (symmetry; apply andb_true_iff; split;
             [apply Z.leb_le | apply Z.ltb_lt]; lia);
       f_equal; lia
     | intros i Hi; unfold memcpy;
       replace ((0 <=? i) && (i <? 0 + Input.size (input (data m))))
         with false; [reflexivity|];
       symmetry; apply andb_false_iff;
       destruct Hi; [left; apply Z.leb_gt | right; apply Z.ltb_ge]; lia ]).
Qed.

(** X8: When no PCR lies ahead in the window and the file has a whole window
    from the cursor on, the refill moves the window to the cursor:
    [file_skip] grows by the offset of the cursor, the cursor returns to the
    start of the buffer, the buffer holds the bytes of the file from the new
    [file_skip] on, and the loop goes on without a signal. *)
Theorem thread_loop_refill_advances (m : machine) (f : file_t) (p : Z) :
  disk m = Some f -> 0 < fd (data m) ->
  Input.ptr (input (data m)) = Some p ->
  next_block_end m p = None ->
  let off := Input.skip (input (data m)) + p in
  0 <= off < 2 ^ 64 ->
  0 <= Input.size (input (data m)) ->
  off + Input.size (input (data m)) <= st_size f ->
  exists m',
    thread_loop_refill m = Done loop_continue m' /\
    Input.skip (input (data m')) = off /\
    Input.ptr (input (data m')) = Some 0 /\
    (forall i, 0 <= i < Input.size (input (data m)) ->
       Input.buffer (input (data m')) i = contents f (off + i)) /\
    reposition (data m') = reposition (data m) /\
    channel m' = channel m.
Proof.
  intros Hf Hfd Hp Hnone off Hoff Hsz Hfile.
  destruct (refill_moves_window m f p Hf Hfd Hp Hnone Hoff Hsz Hfile)
    as (m' & H1 & H2 & H3 & H4 & _ & H6 & _ & _ & H9 & _).
  exists m'. auto 10.
Qed.

Lemma thread_loop_refill_advances_witness :
  let f := ts_file 6000 (fun k => (k =? 0) || (k =? 2)) in
  let m := after open_file (started (options_of None (Some 1)) (Some f) None) in
  exists m',
    thread_loop_refill m = Done loop_continue m' /\
    Input.skip (input (data m')) = 376 /\
    Input.ptr (input (data m')) = Some 0.
Proof.
  intros f m.
  destruct (thread_loop_refill_advances m f 376)
    as (m' & H1 & H2 & H3 & _).
  - reflexivity.
  - vm_compute. reflexivity.
  - vm_compute. reflexivity.
  - vm_compute. reflexivity.
  - vm_compute. split; [discriminate | reflexivity].
  - vm_compute. discriminate.
  - vm_compute. discriminate.
  - exists m'. split; [exact H1|]. split; [|exact H3].
    rewrite H2. vm_compute. reflexivity.
Defined.

(** X9: A window that holds the file from [file_skip] on, with the cursor at its
    start and no PCR after its first packet, is refilled with itself: the
    refill changes neither [file_skip] nor the cursor nor a byte of the
    buffer, and the next search finds no block end again.  Nothing is sent
    and [reposition] is not raised: without a pause or a seek the loop
    repeats this step. *)
Theorem thread_loop_refill_makes_no_progress (m : machine) (f : file_t) :
  disk m = Some f -> 0 < fd (data m) ->
  Input.ptr (input (data m)) = Some 0 ->
  next_block_end m 0 = None ->
  0 <= Input.skip (input (data m)) < 2 ^ 64 ->
  0 <= Input.size (input (data m)) ->
  Input.skip (input (data m)) + Input.size (input (data m)) <= st_size f ->
  (forall i, 0 <= i < Input.size (input (data m)) ->
     Input.buffer (input (data m)) i
     = contents f (Input.skip (input (data m)) + i)) ->
  exists m',
    thread_loop_refill m = Done loop_continue m' /\
    Input.skip (input (data m')) = Input.skip (input (data m)) /\
    Input.ptr (input (data m')) = Some 0 /\
    (forall i, Input.buffer (input (data m')) i
               = Input.buffer (input (data m)) i) /\
    reposition (data m') = reposition (data m) /\
    channel m' = channel m /\
    next_block_end m' 0 = None.
Proof.
  intros Hf Hfd Hp Hnone Hskip Hsz Hfile Himg.
  destruct (refill_moves_window m f 0 Hf Hfd Hp Hnone)
    as (m' & Hrun & Hsk & Hptr & Hin & Hout & Hrep & Hts & Hsize & Hch & _);
    try lia.
  assert (Hbuf : forall i, Input.buffer (input (data m')) i
                           = Input.buffer (input (data m)) i).
  { intros i.
    destruct (Z_lt_dec i 0) as [Hneg|Hnn]; [apply Hout; lia|].
    destruct (Z_lt_dec i (Input.size (input (data m)))) as [Hlt|Hge];
      [|apply Hout; lia].
    rewrite Hin by lia. rewrite Himg by lia. f_equal. lia. }
  exists m'. repeat split; auto; try lia.
  unfold next_block_end, seek_pcr_188, seek_pcr_192, Input.end_ in *.
  rewrite Hts, Hsize.
  destruct (ts_size (data m) =? TS_PACKET_SIZE);
    rewrite <- Hnone; apply seek_loop_ext; exact Hbuf.
Qed.

Lemma thread_loop_refill_makes_no_progress_witness :
  let f := ts_file 6000 (fun k => k =? 1) in
  let m0 := after open_file
              (started (options_of None (Some 1)) (Some f) None) in
  let m := after thread_loop_refill m0 in
  exists m',
    thread_loop_refill m = Done loop_continue m' /\
    Input.skip (input (data m')) = 188 /\
    next_block_end m' 0 = None.
Proof.
  intros f m0 m.
  destruct (refill_moves_window m0 f 188)
    as (m1 & Hrun & Hsk & _ & Hin & _ & _ & _ & Hsize & _).
  { reflexivity. }
  { vm_compute. reflexivity. }
  { vm_compute. reflexivity. }
  { vm_compute. reflexivity. }
  { vm_compute. split; [discriminate | reflexivity]. }
  { vm_compute. discriminate. }
  { vm_compute. discriminate. }
  assert (Em : m = m1) by (unfold m, after; rewrite Hrun; reflexivity).
  destruct (thread_loop_refill_makes_no_progress m f)
    as (m' & H1 & H2 & _ & _ & _ & _ & H7).
  - reflexivity.
  - vm_compute. reflexivity.
  - vm_compute. reflexivity.
  - vm_compute. reflexivity.
  - vm_compute. split; [discriminate | reflexivity].
  - vm_compute. discriminate.
  - vm_compute. discriminate.
  - intros i Hi. rewrite Em in Hi |- *. rewrite Hsize in Hi.
    rewrite (Hin i Hi), Hsk. reflexivity.
  - exists m'. split; [exact H1|]. split; [|exact H7].
    rewrite H2. vm_compute. reflexivity.
Defined.

(** ** The ring, continued *)

(** X10: Whatever pushes and pops were made on the initialised ring, the fill
    level is a multiple of 188 between 0 and the capacity, both indices are
    packet-aligned offsets inside the ring, and the write index is the read
    index advanced by the fill level, modulo the capacity. *)
Theorem ring_stays_in_bounds (m0 m : machine) (ops : list queue_op) :
  ring_ready m0 ->
  queue_run ops m0 = Done tt m ->
  let s := sync (data m) in
  Sync.buffer_size s = SYNC_BUFFER_SIZE /\
  0 <= Sync.buffer_count s <= Sync.buffer_size s /\
  Sync.buffer_count s mod 188 = 0 /\
  0 <= Sync.buffer_read s < Sync.buffer_size s /\
  Sync.buffer_read s mod 188 = 0 /\
  0 <= Sync.buffer_write s < Sync.buffer_size s /\
  Sync.buffer_write s mod 188 = 0 /\
  Sync.buffer_write s
  = (Sync.buffer_read s + Sync.buffer_count s) mod Sync.buffer_size s.
Proof.
  intros Hready Hrun s.
  pose proof (queue_run_inv ops m0 m (ring_ready_inv m0 Hready) Hrun) as Hinv.
  destruct Hinv as (Hs & Hr & Hra & Hc & Hsig & Hw & Ho).
  fold s in Hs, Hr, Hra, Hc, Hsig, Hw, Ho.
  pose proof (signals_nonneg (channel m)) as Hnn.
  rewrite Hs. repeat split; try lia; try ring_arith.
Qed.

Lemma ring_stays_in_bounds_witness :
  let m0 := started (options_of None None) None None in
  let ops := [op_push (packet true); op_exit; op_pop; op_push (packet false)] in
  let m := after (queue_run ops) m0 in
  0 <= Sync.buffer_count (sync (data m)) <= Sync.buffer_size (sync (data m))
  /\ Sync.buffer_write (sync (data m))
     = (Sync.buffer_read (sync (data m)) + Sync.buffer_count (sync (data m)))
       mod Sync.buffer_size (sync (data m)).
Proof.
  intros m0 ops m.
  destruct (ring_stays_in_bounds m0 m ops) as (_ & H1 & _ & _ & _ & _ & _ & H2).
  - vm_compute. repeat split; reflexivity.
  - vm_compute. reflexivity.
  - split; [exact H1 | exact H2].
Defined.

(** X11: On a full ring a burst of [n] pushes stores nothing and sends nothing:
    it adds [n] to [overflow_count] and changes nothing else of the ring. *)
Theorem full_ring_counts_drops (n : nat) (m : machine) (ts : mem) :
  Sync.buffer_size (sync (data m)) <= Sync.buffer_count (sync (data m)) ->
  0 <= Sync.buffer_overflow (sync (data m)) ->
  Sync.buffer_overflow (sync (data m)) + Z.of_nat n < 2 ^ 32 ->
  exists m',
    queue_run (repeat (op_push ts) n) m = Done tt m' /\
    Sync.buffer_overflow (sync (data m'))
    = Sync.buffer_overflow (sync (data m)) + Z.of_nat n /\
    Sync.buffer_count (sync (data m')) = Sync.buffer_count (sync (data m)) /\
    channel m' = channel m /\ log m' = log m.
Proof.
  intros Hfull Ho Hlt.
  destruct (drops_are_counted n m ts Hfull Ho Hlt)
    as (m' & H1 & H2 & _ & H4 & H5 & H6).
  exists m'. auto.
Qed.

Lemma full_ring_counts_drops_witness :
  exists m',
    queue_run (repeat (op_push (packet true)) 5) full_ring = Done tt m' /\
    Sync.buffer_overflow (sync (data m')) = 5 /\
    channel m' = [].
Proof.
  destruct (full_ring_counts_drops 5 full_ring (packet true))
    as (m' & H1 & H2 & _ & H4 & _).
  - vm_compute. discriminate.
  - vm_compute. discriminate.
  - vm_compute. reflexivity.
  - exists m'. split; [exact H1|]. split; [exact H2 | exact H4].
Defined.

(** X12: The sentinel at the head of the channel: the pop takes it, calls
    the EOF callback once if one is registered, and touches neither the ring nor
    the packet buffer, which is handed on as it was (uninitialised). *)
Theorem pop_of_sentinel (m : machine) (rest : list Z) :
  channel m = 0xFF :: rest ->
  exists m',
    on_thread_read m = Done (uninit m) m' /\
    channel m' = rest /\
    sync (data m') = sync (data m) /\
    eof_calls m'
    = (if idx_callback (data m) =? 0 then eof_calls m else S (eof_calls m)) /\
    log m' = log m.
Proof.
  intros Hch. unfold on_thread_read, sync_queue_pop. run_M. rewrite Hch. cbn.
  case_if; (eexists; split; [reflexivity|]); cbn; auto.
Qed.

Lemma pop_of_sentinel_witness :
  let m := after (sync_queue_push None)
                 (started (options_of None None) None None) in
  exists m',
    on_thread_read m = Done (uninit m) m' /\
    channel m' = [] /\
    eof_calls m' = 0%nat.
Proof.
  intro m.
  destruct (pop_of_sentinel m []) as (m' & H1 & H2 & _ & H4 & _).
  - reflexivity.
  - exists m'. split; [exact H1|]. split; [exact H2|]. rewrite H4. reflexivity.
Defined.

(** ** Initialisation *)

(** What the reading of the lock file leaves alone. *)
(** X13: [module_init] on a fresh instance reads past [skip_str] when the
    lock file makes [strtoul] do so, and returns otherwise.  When it
    returns, the ring is ready (capacity 2048 packets, empty, nothing in
    flight) and the window has the size computed from [buffer_size] (2 MiB
    when the option is absent or not positive); the cursor is at the start
    of the window when that size can be allocated, as it can for 1 to 2047
    MiB, and null when it cannot, as for 2048 to 4095 MiB, where the
    [int] product wraps.  Nothing is logged. *)
Theorem module_init_ready (o : options) (f : option file_t)
    (lk : option (list Z)) (w : bool) (g : mem) (clk : nat -> Z) :
  if lock_overruns o (boot f lk w g clk)
  then module_init o (boot f lk w g clk) = Stop reads_past_array
  else
    exists m,
      module_init o (boot f lk w g clk) = Done tt m /\
      ring_ready m /\
      Input.size (input (data m)) = window_size o /\
      Input.ptr (input (data m))
      = (if window_size o <=? PTRDIFF_MAX then Some 0 else None) /\
      (forall n, opt_buffer_size o = Some n -> 0 < n < 2048 ->
         Input.size (input (data m)) = n * 1048576 /\
         Input.ptr (input (data m)) = Some 0) /\
      (forall n, opt_buffer_size o = Some n -> 2048 <= n < 4096 ->
         Input.size (input (data m)) = 2 ^ 64 - 2 ^ 32 + n * 1048576 /\
         Input.ptr (input (data m)) = None) /\
      ((opt_buffer_size o = None
        \/ exists n, opt_buffer_size o = Some n /\ n <= 0) ->
       Input.size (input (data m)) = 2 * 1048576 /\
       Input.ptr (input (data m)) = Some 0) /\
      log m = [] /\ disk m = f.
Proof.
  pose proof (module_init_cases o (boot f lk w g clk)) as H.
  destruct (lock_overruns o (boot f lk w g clk)); [exact H|].
  destruct H as (m & Hrun & _ & _ & Hz & Hc & Hr & Hw & Ho & Hsz & Hp & _ & _
                 & Hd & Hch & Hlog).
  exists m. split; [exact Hrun|].
  split; [repeat split; assumption|].
  split; [exact Hsz|]. split; [exact Hp|].
  rewrite Hp, Hsz. unfold window_size, PTRDIFF_MAX.
  split; [|split; [|split; [|split; assumption]]].
  - intros n -> Hn.
    replace (n <=? 0) with false by (symmetry; apply Z.leb_gt; lia).
    assert (E : u64 (i32 (n * 1024 * 1024)) = n * 1048576).
    { unfold u64, i32.
      rewrite (Z.mod_small (n * 1024 * 1024) (2 ^ 32)) by lia.
      replace (n * 1024 * 1024 <? 2 ^ 31) with true
        by (symmetry; apply Z.ltb_lt; lia).
      rewrite Z.mod_small by lia. lia. }
    rewrite E. split; [reflexivity|].
    replace (n * 1048576 <=? 2 ^ 63 - 1) with true
      by (symmetry; apply Z.leb_le; lia).
    reflexivity.
  - intros n -> Hn.
    replace (n <=? 0) with false by (symmetry; apply Z.leb_gt; lia).
    assert (E : u64 (i32 (n * 1024 * 1024))
                = 2 ^ 64 - 2 ^ 32 + n * 1048576).
    { unfold u64, i32.
      rewrite (Z.mod_small (n * 1024 * 1024) (2 ^ 32)) by lia.
      replace (n * 1024 * 1024 <? 2 ^ 31) with false
        by (symmetry; apply Z.ltb_ge; lia).
      replace (n * 1024 * 1024 - 2 ^ 32)
        with (2 ^ 64 - 2 ^ 32 + n * 1048576 + (-1) * 2 ^ 64) by lia.
      rewrite Z.mod_add by lia. rewrite Z.mod_small by lia. reflexivity. }
    rewrite E. split; [reflexivity|].
    replace (2 ^ 64 - 2 ^ 32 + n * 1048576 <=? 2 ^ 63 - 1) with false
      by (symmetry; apply Z.leb_gt; lia).
    reflexivity.
  - intros [->|(n & -> & Hn)].
    + split; reflexivity.
    + replace (n <=? 0) with true by (symmetry; apply Z.leb_le; lia).
      split; reflexivity.
Qed.

(** The window that could not be allocated: with [buffer_size] 2048 the
    thread's [open_file] reads nothing into it, warns, finds the cursor
    null and gives up. *)
Lemma open_file_null_window :
  returns (open_file (started (options_of None (Some 2048))
                              (Some three_cells) None))
    (fun rc m =>
       rc = 0 /\
       log m = [warn "file is too small"; err "first PCR is not found"] /\
       fd (data m) = 0 /\
       Input.ptr (input (data m)) = None).
Proof. vm_compute. repeat split; reflexivity. Qed.

(** X14: Whatever the clock and the accumulators, the drift that the stream
    syncing hands to the next block is not below -100 ms and not above
    100 ms. *)
Theorem stream_sync_keeps_drift_in_range (v : sync_vars) (m : machine) :
  returns (stream_sync v m)
    (fun v' _ =>
       (total_sync_diff v' <? -100)%float = false /\
       (100 <? total_sync_diff v')%float = false).
Proof.
  unfold stream_sync, stream_sync_diff, stream_sync_reset, returns. run_M.
  case_if.
  - split; reflexivity.
  - match goal with
    | |- context [(?d <? -100)%float || (100 <? ?d)%float] =>
        destruct ((d <? -100)%float || (100 <? d)%float) eqn:E
    end; cbn.
    + split; reflexivity.
    + apply orb_false_iff in E. exact E.
Qed.

(** ** The ring is a queue *)












(** ** Seeking, when the arithmetic does not wrap *)

(** X16: For a position inside an M2TS recording of less than 4 GiB, when the
    product of the position and the cell count stays below 2^32,
    [position(ms)] raises [reposition] and sets [file_skip] to the
    proportional offset; that offset is a whole number of cells and leaves
    at least one cell of the file to read. *)
Theorem method_position_seeks_to_cell (m : machine) (ms p : Z) :
  0 <= ms < length (data m) -> length (data m) <= 2 ^ 32 ->
  ts_size (data m) = M2TS_PACKET_SIZE ->
  Input.ptr (input (data m)) = Some p ->
  192 <= file_size (data m) < 2 ^ 32 ->
  ms * (file_size (data m) / 192) < 2 ^ 32 ->
  exists r m',
    method_position (Some ms) m = Done r m' /\
    r = u32 (m2ts_time (index (Input.buffer (input (data m))) p) / 1000
             - start_time (data m)) /\
    reposition (data m') = true /\
    Input.skip (input (data m'))
    = ms * (file_size (data m) / 192) / length (data m) * 192 /\
    Input.skip (input (data m')) mod 192 = 0 /\
    0 <= Input.skip (input (data m')) <= file_size (data m) - 192.
Proof.
  intros Hms Hlen Hts Hp Hfs Hmul.
  rewrite (method_position_seek m ms p Hms Hlen Hts Hp).
  eexists. eexists. split; [reflexivity|]. cbn.
  rewrite (method_position_in_range m ms Hms) by lia.
  set (n := file_size (data m) / 192) in *.
  assert (Hn : 1 <= n /\ n * 192 <= file_size (data m))
    by (unfold n; Z.to_euclidean_division_equations; lia).
  assert (Hq : 0 <= ms * n / length (data m) <= n - 1).
  { split; [apply Z.div_pos; nia|].
    assert (ms * n / length (data m) < n); [|lia].
    apply Z.div_lt_upper_bound; nia. }
  repeat split; try lia.
  apply Z.mod_mul. lia.
Qed.

Lemma method_position_seeks_to_cell_witness :
  let f := m2ts_file 6000 (fun k => 1000 * (k + 1)) (fun k => k =? 3) in
  let m := after open_file
             (started (options_of None (Some 1)) (Some f) None) in
  exists r m',
    method_position (Some 1000) m = Done r m' /\
    reposition (data m') = true /\
    Input.skip (input (data m')) = 1000 * 192.
Proof.
  intros f m.
  destruct (method_position_seeks_to_cell m 1000 576)
    as (r & m' & H1 & _ & H3 & H4 & _).
  - vm_compute. split; [discriminate | reflexivity].
  - vm_compute. discriminate.
  - vm_compute. reflexivity.
  - vm_compute. reflexivity.
  - vm_compute. split; [discriminate | reflexivity].
  - vm_compute. reflexivity.
  - exists r, m'. split; [exact H1|]. split; [exact H3|].
    rewrite H4. vm_compute. reflexivity.
Defined.

(** ** Decoding of time stamps *)

Lemma lor_disjoint a b n :
  0 <= n -> 0 <= b < 2 ^ n -> Z.lor (a * 2 ^ n) b = a * 2 ^ n + b.
Proof.
  intros Hn Hb.
  assert (Hland : Z.land (a * 2 ^ n) b = 0).
  { apply Z.bits_inj'. intros k Hk.
    rewrite Z.land_spec, Z.bits_0, <- Z.shiftl_mul_pow2 by exact Hn.
    destruct (Z.lt_ge_cases k n) as [Hlt|Hge].
    - rewrite Z.shiftl_spec_low by exact Hlt. reflexivity.
    - destruct (Z.eq_dec b 0) as [->|Hnz].
      + rewrite Z.bits_0. apply andb_false_r.
      + rewrite (Z.bits_above_log2 b k); [apply andb_false_r | lia |].
        assert (Z.log2 b < n) by (apply Z.log2_lt_pow2; lia). lia. }
  rewrite <- Z.lxor_lor by exact Hland.
  symmetry. apply Z.add_nocarry_lxor. exact Hland.
Qed.

(** X17: [m2ts_time] reads the four bytes of the stamp as a big-endian
    number. *)
Theorem m2ts_time_big_endian (ts : mem) :
  bytes_upto ts 4 ->
  m2ts_time ts = ts 0 * 2 ^ 24 + ts 1 * 2 ^ 16 + ts 2 * 2 ^ 8 + ts 3.
Proof.
  intros Hb. unfold m2ts_time.
  pose proof (Hb 0 ltac:(lia)). pose proof (Hb 1 ltac:(lia)).
  pose proof (Hb 2 ltac:(lia)). pose proof (Hb 3 ltac:(lia)).
  rewrite !Z.shiftl_mul_pow2 by lia.
  rewrite (lor_disjoint (ts 0) (ts 1 * 2 ^ 16) 24) by lia.
  replace (ts 0 * 2 ^ 24 + ts 1 * 2 ^ 16)
    with ((ts 0 * 2 ^ 8 + ts 1) * 2 ^ 16) by lia.
  rewrite (lor_disjoint _ (ts 2 * 2 ^ 8) 16) by lia.
  replace ((ts 0 * 2 ^ 8 + ts 1) * 2 ^ 16 + ts 2 * 2 ^ 8)
    with ((ts 0 * 2 ^ 16 + ts 1 * 2 ^ 8 + ts 2) * 2 ^ 8) by lia.
  rewrite (lor_disjoint _ (ts 3) 8) by lia.
  unfold u32. rewrite Z.mod_small by lia. lia.
Qed.

Lemma m2ts_time_big_endian_witness :
  m2ts_time (cell 1000000 true) = 1000000.
Proof.
  rewrite (m2ts_time_big_endian (cell 1000000 true)).
  - reflexivity.
  - intros i Hi.
    assert (i = 0 \/ i = 1 \/ i = 2 \/ i = 3) as [-> | [-> | [-> | ->]]]
      by lia; vm_compute; (split; [discriminate | reflexivity]).
Defined.

(** X18: [calc_pcr] yields the PCR of the adaptation field, base times 300 plus
    extension, as long as the base is below 2^31: the five terms of the
    base are shifted as [int], so a byte [ts[6]] of 64 or more reaches the
    sign bit. *)
Theorem calc_pcr_decodes (ts : mem) :
  bytes_upto ts 12 ->
  ts 6 < 64 ->
  calc_pcr ts
  = (ts 6 * 2 ^ 25 + ts 7 * 2 ^ 17 + ts 8 * 2 ^ 9 + ts 9 * 2 + ts 10 / 128)
    * 300
    + (ts 10 mod 2 * 256 + ts 11).
Proof.
  intros Hb H6. unfold calc_pcr.
  pose proof (Hb 6 ltac:(lia)). pose proof (Hb 7 ltac:(lia)).
  pose proof (Hb 8 ltac:(lia)). pose proof (Hb 9 ltac:(lia)).
  pose proof (Hb 10 ltac:(lia)). pose proof (Hb 11 ltac:(lia)).
  rewrite !Z.shiftl_mul_pow2, Z.shiftr_div_pow2 by lia.
  change (2 ^ 7) with 128. change (2 ^ 1) with 2.
  assert (H10 : 0 <= ts 10 / 128 < 2)
    by (Z.to_euclidean_division_equations; lia).
  assert (Hl : Z.land (ts 10) 1 = ts 10 mod 2).
  { change 1 with (Z.ones 1). rewrite Z.land_ones by lia. reflexivity. }
  assert (H10' : 0 <= ts 10 mod 2 < 2) by (apply Z.mod_pos_bound; lia).
  rewrite Hl.
  rewrite (lor_disjoint (ts 6) (ts 7 * 2 ^ 17) 25) by lia.
  replace (ts 6 * 2 ^ 25 + ts 7 * 2 ^ 17)
    with ((ts 6 * 2 ^ 8 + ts 7) * 2 ^ 17) by lia.
  rewrite (lor_disjoint _ (ts 8 * 2 ^ 9) 17) by lia.
  replace ((ts 6 * 2 ^ 8 + ts 7) * 2 ^ 17 + ts 8 * 2 ^ 9)
    with ((ts 6 * 2 ^ 16 + ts 7 * 2 ^ 8 + ts 8) * 2 ^ 9) by lia.
  replace (ts 9 * 2) with (ts 9 * 2 ^ 1) by lia.
  rewrite (lor_disjoint _ (ts 9 * 2 ^ 1) 9) by lia.
  replace ((ts 6 * 2 ^ 16 + ts 7 * 2 ^ 8 + ts 8) * 2 ^ 9 + ts 9 * 2 ^ 1)
    with ((ts 6 * 2 ^ 24 + ts 7 * 2 ^ 16 + ts 8 * 2 ^ 8 + ts 9) * 2 ^ 1)
    by lia.
  rewrite (lor_disjoint _ (ts 10 / 128) 1) by lia.
  rewrite (lor_disjoint (ts 10 mod 2) (ts 11) 8) by lia.
  assert (Hi : forall z, 0 <= z < 2 ^ 31 -> u64 (i32 z) = z).
  { intros z Hz. unfold u64, i32. rewrite (Z.mod_small z) by lia.
    destruct (z <? 2 ^ 31) eqn:E; [|apply Z.ltb_ge in E; lia].
    apply Z.mod_small. lia. }
  rewrite !Hi by lia.
  unfold u64. rewrite Z.mod_small by lia. lia.
Qed.

Lemma calc_pcr_decodes_witness :
  calc_pcr (fun i => if i =? 9 then 1 else if i =? 11 then 5 else 0) = 605.
Proof.
  rewrite calc_pcr_decodes.
  - reflexivity.
  - intros i Hi. destruct (i =? 9); [lia|]. destruct (i =? 11); lia.
  - reflexivity.
Defined.

(** ** The loop after a seek *)

(** X19: A seek into a TS file whose window then holds no PCR after its first
    packet: the reopening fails with "first PCR is not found" and leaves the
    cursor null; the loop does not look at the result, clears [reposition],
    and its next search of a block end reads through the null cursor. *)
Theorem reposition_then_search_reads_null
    (v : sync_vars) (m : machine) (f : file_t) :
  reposition (data m) = true ->
  disk m = Some f ->
  fst (probe_read m f) = Input.size (input (data m)) ->
  classify (snd (probe_read m f)) = Some (TS_PACKET_SIZE, 0) ->
  (forall k, 1 <= k -> k * 188 < Input.size (input (data m)) ->
     check_pcr (index (snd (probe_read m f)) (k * 188)) = false) ->
  returns (thread_loop_reposition v m)
    (fun _ m' =>
       reposition (data m') = false /\
       fd (data m') = 0 /\
       In (err "first PCR is not found") (log m') /\
       thread_loop_refill m' = Stop null_dereference).
Proof.
  intros Hrep Hf Hfull Hcl Hnone.
  destruct (open_file_ts_seek_none m f Hf Hfull Hcl
              (seek_pcr_188_none_intro _ _ Hnone))
    as (m1 & Hopen & Hlog & Hfd & _ & Hptr).
  unfold thread_loop_reposition, bind, get. rewrite Hrep, Hopen.
  unfold modify, asc_utime, ret, returns. cbn.
  rewrite Hfd, Hlog. repeat split; auto using in_or_app, in_eq.
  unfold thread_loop_refill, bind, get. cbn. rewrite Hptr. reflexivity.
Qed.

Lemma reposition_then_search_reads_null_witness :
  let f := ts_file 6000 (fun _ => false) in
  let m0 := started (options_of None (Some 1)) (Some f) None in
  let m := set_data (set_reposition true (data m0)) m0 in
  returns (thread_loop_reposition sample_sync_vars m)
    (fun _ m' =>
       reposition (data m') = false /\
       fd (data m') = 0 /\
       In (err "first PCR is not found") (log m') /\
       thread_loop_refill m' = Stop null_dereference).
Proof.
  intros f m0 m.
  apply (reposition_then_search_reads_null sample_sync_vars m f).
  - reflexivity.
  - reflexivity.
  - vm_compute. reflexivity.
  - vm_compute. reflexivity.
  - apply seek_pcr_188_none_inv. vm_compute. reflexivity.
Defined.

(** X20: When a block end lies ahead, the search changes nothing: the loop goes
    on to pace the block, whose end is a whole number of packets, at least
    one, past the cursor and inside the window. *)
Theorem thread_loop_refill_finds_block (m : machine) (p e : Z) :
  Input.ptr (input (data m)) = Some p ->
  next_block_end m p = Some e ->
  thread_loop_refill m = Done (loop_block e) m /\
  (exists k, 1 <= k /\ e = p + k * stride m) /\
  e < Input.size (input (data m)).
Proof.
  intros Hp He. unfold next_block_end, stride, Input.end_ in *.
  split.
  - unfold thread_loop_refill, bind, get, Input.end_. rewrite Hp.
    destruct (ts_size (data m) =? TS_PACKET_SIZE); rewrite He; reflexivity.
  - destruct (ts_size (data m) =? TS_PACKET_SIZE).
    + pose proof (seek_pcr_188_scan (Input.buffer (input (data m))) p
                    (Input.size (input (data m)))) as H.
      rewrite He in H. destruct H as (k & Hk & Hq & Hlt & _).
      split; [exists k; auto | exact Hlt].
    + pose proof (seek_pcr_192_scan (Input.buffer (input (data m))) p
                    (Input.size (input (data m)))) as H.
      rewrite He in H. destruct H as (k & Hk & Hq & Hlt & _).
      split; [exists k; auto | exact Hlt].
Qed.

Lemma thread_loop_refill_finds_block_witness :
  let f := ts_file 6000 (fun k => (k =? 2) || (k =? 7)) in
  let m := after open_file
             (started (options_of None (Some 1)) (Some f) None) in
  thread_loop_refill m = Done (loop_block (7 * 188)) m.
Proof.
  intros f m.
  destruct (thread_loop_refill_finds_block m (2 * 188) (7 * 188)) as [H _].
  - vm_compute. reflexivity.
  - vm_compute. reflexivity.
  - exact H.
Defined.

(** ** The lock file, continued *)

(** X21: When the lock file can be written, the timer leaves in it the decimal
    digits of [file_skip] and nothing else, whatever it held before: one to
    twenty ASCII digits.  The module is not changed. *)
Theorem timer_skip_set_writes_decimal (m : machine) :
  lock_writable m = true ->
  returns (timer_skip_set m)
    (fun _ m' =>
       exists digits,
         lock_file m' = Some digits /\
         digits = sprintf_lu (Input.skip (input (data m))) /\
         Forall (fun c => isdigit c = true) digits /\
         (1 <= List.length digits <= 20)%nat /\
         data m' = data m /\ log m' = log m).
Proof.
  intros Hw. rewrite (timer_skip_set_writes m Hw). cbn [returns].
  eexists. split; [reflexivity|]. split; [reflexivity|].
  split; [apply decimal_isdigit|].
  split; [|split; reflexivity].
  split; [|apply decimal_length].
  unfold sprintf_lu. rewrite decimal_S, length_app. cbn [List.length]. lia.
Qed.

Lemma timer_skip_set_writes_decimal_witness :
  let m := set_lock_file (Some [120; 121; 122; 49; 50; 51; 52; 53])
             (started (options_of (Some "input.lock"%string) None)
                      (Some three_cells) None) in
  returns (timer_skip_set m)
    (fun _ m' =>
       exists digits,
         lock_file m' = Some digits /\
         digits = sprintf_lu (Input.skip (input (data m))) /\
         Forall (fun c => isdigit c = true) digits /\
         (1 <= List.length digits <= 20)%nat /\
         data m' = data m /\ log m' = log m).
Proof.
  intro m. apply (timer_skip_set_writes_decimal m). reflexivity.
Defined.

(** X22: With a lock path configured but no lock file, or an empty one,
    [module_init] leaves the offset of a fresh instance at 0 and arms the
    timer; without a lock path the lock file is not read and the timer is
    not armed. *)
Theorem module_init_without_stored_offset (o : options) (f : option file_t)
    (lk : option (list Z)) (w : bool) (g : mem) (clk : nat -> Z) :
  opt_lock o = None \/ lk = None \/ lk = Some [] ->
  exists m,
    module_init o (boot f lk w g clk) = Done tt m /\
    Input.skip (input (data m)) = 0 /\
    timer_skip (data m) = (match opt_lock o with Some _ => true
                                            | None => false end) /\
    lock_file m = lk /\ log m = [].
Proof.
  intros Hcase.
  pose proof (module_init_cases o (boot f lk w g clk)) as H.
  unfold lock_overruns in H.
  change (lock_file (boot f lk w g clk)) with lk in H.
  change (Input.skip (input (data (boot f lk w g clk)))) with 0 in H.
  change (timer_skip (data (boot f lk w g clk))) with false in H.
  change (log (boot f lk w g clk)) with (@nil log_entry) in H.
  destruct (opt_lock o) as [path|].
  - destruct Hcase as [Hc|[Hc|Hc]]; [discriminate| |]; subst lk;
      destruct H as (m & Hrun & Hsk & Htm & _ & _ & _ & _ & _ & _ & _ & _
                     & Hlf & _ & _ & Hlog);
      exists m; auto.
  - destruct H as (m & Hrun & Hsk & Htm & _ & _ & _ & _ & _ & _ & _ & _
                   & Hlf & _ & _ & Hlog).
    exists m. auto.
Qed.

Lemma module_init_without_stored_offset_witness :
  exists m,
    module_init (options_of (Some "input.lock"%string) None)
                (boot (Some three_cells) (Some []) true zeros (fun _ => 0))
    = Done tt m /\
    Input.skip (input (data m)) = 0 /\
    timer_skip (data m) = true.
Proof.
  destruct (module_init_without_stored_offset
              (options_of (Some "input.lock"%string) None)
              (Some three_cells) (Some []) true zeros (fun _ => 0))
    as (m & H1 & H2 & H3 & _).
  - right. right. reflexivity.
  - exists m. split; [exact H1|]. split; [exact H2 | exact H3].
Defined.
